(** * Recursive least squares and the longitudinal vehicle model

    A shallow embedding of the two notebooks of the repository:

    - [course_2/Week 1/C2M1L2.ipynb]: batch and recursive least-squares fit of
      [V = R*I + b] to five (current, voltage) pairs;
    - [course_1/Course1_Longitudinal_Vehicle_Model.ipynb]: the [Vehicle] class
      (constructor, [reset], [step]) and the ramp simulation that fills
      [x_data].

    Numbers.  The notebooks compute with IEEE-754 doubles.  Two readings of
    the arithmetic are used.  The exact reading takes every number as a
    rational in lowest terms ([Qc], whose equality is Leibniz equality) and
    every operation as the exact one; it is used for what does not depend on
    rounding: which expressions the code evaluates and in what order, the
    shapes of the arrays, the effects on the state, the values of the
    notebook's own run to the digits that separate them.  The binary64
    reading ([Binary64], [Longitudinal64]) computes with the primitive
    doubles, every operation rounded to nearest; it is used where rounding,
    overflow or the kind of number (Python [float] or NumPy scalar) decides
    the property.

    Arrays.  A NumPy array is modelled with its rank, because the notebook's
    behaviour depends on it ([np.dot] of a matrix with a 1-D array, indexing
    with two subscripts).  Operations that NumPy rejects return the exception
    NumPy raises. *)

From Stdlib Require Import PrimFloat String ZArith QArith Qcanon Qround Lqa
  Lia Bool PeanoNat List.
Import ListNotations.
Set Warnings "-inexact-float".
Local Open Scope Qc_scope.

(** A Python number written in the source, as an exact rational. *)
Definition float (q : Q) : Qc := Q2Qc q.
Arguments float q%_Q.

(** ** Exceptions and the error monad *)

Inductive exn : Type :=
| IndexError
| ValueError
| LinAlgError
| ZeroDivisionError
| OverflowError
| Unmodelled.

Inductive result (A : Type) : Type :=
| Ok (a : A)
| Raise (e : exn).

Arguments Ok {A} a.
Arguments Raise {A} e.

Definition bind {A B : Type} (c : result A) (k : A -> result B) : result B :=
  match c with
  | Ok a => k a
  | Raise e => Raise e
  end.

Notation "x <- c ;; k" := (bind c (fun x => k))
  (at level 61, c at next level, right associativity).

Definition is_ok {A : Type} (c : result A) : bool :=
  match c with Ok _ => true | Raise _ => false end.

(** ** NumPy arrays of rank 0, 1 and 2 *)

Module Numpy.

Inductive ndarray : Type :=
| Arr0 (s : Qc)
| Arr1 (l : list Qc)
| Arr2 (rows : list (list Qc)).

Definition nrows (rows : list (list Qc)) : nat := length rows.

Definition ncols (rows : list (list Qc)) : nat :=
  match rows with
  | [] => 0%nat
  | r :: _ => length r
  end.

(** [a.shape] *)
Definition shape (a : ndarray) : list nat :=
  match a with
  | Arr0 _ => []
  | Arr1 l => [length l]
  | Arr2 rows => [nrows rows; ncols rows]
  end.

Definition column (j : nat) (rows : list (list Qc)) : list Qc :=
  map (fun r => nth j r 0) rows.

Definition transpose (rows : list (list Qc)) : list (list Qc) :=
  map (fun j => column j rows) (seq 0 (ncols rows)).

(** [a.T]: arrays of rank below 2 are returned unchanged. *)
Definition T (a : ndarray) : ndarray :=
  match a with
  | Arr2 rows => Arr2 (transpose rows)
  | _ => a
  end.

(** Sum of products over two lists of the same length. *)
Fixpoint inner (u v : list Qc) : Qc :=
  match u, v with
  | a :: u', b :: v' => a * b + inner u' v'
  | _, _ => 0
  end.

Definition scale (s : Qc) (a : ndarray) : ndarray :=
  match a with
  | Arr0 t => Arr0 (s * t)
  | Arr1 l => Arr1 (map (Qcmult s) l)
  | Arr2 rows => Arr2 (map (map (Qcmult s)) rows)
  end.

(** [np.dot(a, b)]: a scalar operand multiplies; two 1-D arrays give their
    inner product; a 2-D array times a 1-D array sums over the last axis of
    the first and gives a 1-D array; two 2-D arrays give the matrix product.
    A length mismatch raises [ValueError]. *)
Definition dot (a b : ndarray) : result ndarray :=
  match a, b with
  | Arr0 s, _ => Ok (scale s b)
  | _, Arr0 s => Ok (scale s a)
  | Arr1 u, Arr1 v =>
      if (length u =? length v)%nat then Ok (Arr0 (inner u v))
      else Raise ValueError
  | Arr2 A, Arr1 v =>
      if (ncols A =? length v)%nat then Ok (Arr1 (map (fun r => inner r v) A))
      else Raise ValueError
  | Arr1 u, Arr2 B =>
      if (length u =? nrows B)%nat then Ok (Arr1 (map (inner u) (transpose B)))
      else Raise ValueError
  | Arr2 A, Arr2 B =>
      if (ncols A =? nrows B)%nat
      then Ok (Arr2 (map (fun r => map (inner r) (transpose B)) A))
      else Raise ValueError
  end.

(** Broadcasting of one axis: equal lengths, or one of them is 1. *)
Definition bdim (m n : nat) : result nat :=
  if (m =? n)%nat then Ok m
  else if (m =? 1)%nat then Ok n
  else if (n =? 1)%nat then Ok m
  else Raise ValueError.

Definition stretch {A : Type} (n : nat) (l : list A) : list A :=
  match l with
  | [a] => repeat a n
  | _ => l
  end.

Definition map2 {A B C : Type} (f : A -> B -> C) (l : list A) (l' : list B)
  : list C :=
  map (fun p => f (fst p) (snd p)) (combine l l').

(** Element-wise binary operation with NumPy broadcasting. *)
Definition elementwise (f : Qc -> Qc -> Qc) (a b : ndarray) : result ndarray :=
  match a, b with
  | Arr0 s, Arr0 t => Ok (Arr0 (f s t))
  | Arr0 s, Arr1 v => Ok (Arr1 (map (f s) v))
  | Arr0 s, Arr2 B => Ok (Arr2 (map (map (f s)) B))
  | Arr1 u, Arr0 t => Ok (Arr1 (map (fun x => f x t) u))
  | Arr2 A, Arr0 t => Ok (Arr2 (map (map (fun x => f x t)) A))
  | Arr1 u, Arr1 v =>
      n <- bdim (length u) (length v) ;;
      Ok (Arr1 (map2 f (stretch n u) (stretch n v)))
  | Arr1 u, Arr2 B =>
      n <- bdim (length u) (ncols B) ;;
      Ok (Arr2 (map (fun r => map2 f (stretch n u) (stretch n r)) B))
  | Arr2 A, Arr1 v =>
      n <- bdim (ncols A) (length v) ;;
      Ok (Arr2 (map (fun r => map2 f (stretch n r) (stretch n v)) A))
  | Arr2 A, Arr2 B =>
      m <- bdim (nrows A) (nrows B) ;;
      n <- bdim (ncols A) (ncols B) ;;
      Ok (Arr2 (map2 (fun r r' => map2 f (stretch n r) (stretch n r'))
                  (stretch m A) (stretch m B)))
  end.

(** [a + b] and [a - b] *)
Definition add : ndarray -> ndarray -> result ndarray := elementwise Qcplus.
Definition sub : ndarray -> ndarray -> result ndarray := elementwise Qcminus.

(** [numpy.linalg.inv] in the exact reading.  The notebook inverts matrices
    of order 1 (the innovation covariance) and 2 (the normal equations); a
    zero determinant raises [LinAlgError], as does an argument that is not
    a square matrix.  (On doubles the library raises when its elimination
    meets a zero pivot, which rounding can avoid for a matrix that is
    singular in exact arithmetic; for order 1 the two tests are the same.)
    Square matrices of order 3 and more are not modelled. *)
Definition inv (a : ndarray) : result ndarray :=
  match a with
  | Arr2 [[s]] =>
      if Qc_eq_dec s 0 then Raise LinAlgError else Ok (Arr2 [[1 / s]])
  | Arr2 [[a00; a01]; [a10; a11]] =>
      let det := a00 * a11 - a01 * a10 in
      if Qc_eq_dec det 0 then Raise LinAlgError
      else Ok (Arr2 [[a11 / det; - a01 / det]; [- a10 / det; a00 / det]])
  | Arr2 rows =>
      if (nrows rows =? ncols rows)%nat then Raise Unmodelled
      else Raise LinAlgError
  | _ => Raise LinAlgError
  end.

(** [np.eye(n, m)], [np.zeros((n, m))], [np.ones((n, m))] *)
Definition eye (n m : nat) : ndarray :=
  Arr2 (map (fun i => map (fun j => if (i =? j)%nat then 1 else 0) (seq 0 m))
          (seq 0 n)).

Definition zeros (n m : nat) : ndarray := Arr2 (repeat (repeat 0 m) n).
Definition ones (n m : nat) : ndarray := Arr2 (repeat (repeat 1 m) n).

(** [a[k]] *)
Definition getitem (a : ndarray) (k : nat) : result ndarray :=
  match a with
  | Arr0 _ => Raise IndexError
  | Arr1 l =>
      match nth_error l k with
      | Some s => Ok (Arr0 s)
      | None => Raise IndexError
      end
  | Arr2 rows =>
      match nth_error rows k with
      | Some r => Ok (Arr1 r)
      | None => Raise IndexError
      end
  end.

(** [a[i, j]]: two subscripts on an array of rank below 2 raise
    [IndexError] (too many indices). *)
Definition getitem2 (a : ndarray) (i j : nat) : result Qc :=
  match a with
  | Arr2 rows =>
      match nth_error rows i with
      | Some r =>
          match nth_error r j with
          | Some s => Ok s
          | None => Raise IndexError
          end
      | None => Raise IndexError
      end
  | _ => Raise IndexError
  end.

(** [a.ravel()] *)
Definition ravel (a : ndarray) : ndarray :=
  match a with
  | Arr0 s => Arr1 [s]
  | Arr1 l => a
  | Arr2 rows => Arr1 (concat rows)
  end.

(** The value [v] broadcast to a 1-D array of length [n], as an assignment
    into a row or a column requires. *)
Definition broadcast_to1 (n : nat) (v : ndarray) : result (list Qc) :=
  match v with
  | Arr0 s => Ok (repeat s n)
  | Arr1 l => m <- bdim (length l) n ;;
              if (m =? n)%nat then Ok (stretch n l) else Raise ValueError
  | Arr2 [l] => m <- bdim (length l) n ;;
                if (m =? n)%nat then Ok (stretch n l) else Raise ValueError
  | Arr2 _ => Raise ValueError
  end.

(** The value [v] broadcast to an [m] by [n] array. *)
Definition broadcast_to2 (m n : nat) (v : ndarray) : result (list (list Qc)) :=
  match v with
  | Arr0 s => Ok (repeat (repeat s n) m)
  | Arr1 l => r <- broadcast_to1 n v ;; Ok (repeat r m)
  | Arr2 rows =>
      m' <- bdim (nrows rows) m ;;
      n' <- bdim (ncols rows) n ;;
      if ((m' =? m) && (n' =? n))%nat%bool
      then Ok (stretch m (map (stretch n) rows))
      else Raise ValueError
  end.

Fixpoint replace_nth {A : Type} (k : nat) (x : A) (l : list A) : list A :=
  match l, k with
  | [], _ => []
  | _ :: l', O => x :: l'
  | y :: l', S k' => y :: replace_nth k' x l'
  end.

(** [a[k] = v] on a 2-D array: row [k] receives [v] broadcast to its
    length. *)
Definition setitem (a : ndarray) (k : nat) (v : ndarray) : result ndarray :=
  match a with
  | Arr2 rows =>
      if (k <? nrows rows)%nat
      then r <- broadcast_to1 (ncols rows) v ;; Ok (Arr2 (replace_nth k r rows))
      else Raise IndexError
  | _ => Raise IndexError
  end.

(** [a[:, j] = v] on a 2-D array. *)
Definition setcolumn (a : ndarray) (j : nat) (v : ndarray) : result ndarray :=
  match a with
  | Arr2 rows =>
      if (j <? ncols rows)%nat
      then c <- broadcast_to1 (nrows rows) v ;;
           Ok (Arr2 (map2 (fun r s => replace_nth j s r) rows c))
      else Raise IndexError
  | _ => Raise IndexError
  end.

(** [np.array([[e, c]])] where [c] is a float.  When [e] is a scalar the
    result is the 1 by 2 row.  When [e] is an array, the inner list holds an
    array next to a float and has no rectangular shape: NumPy 1.24 and later
    raise [ValueError] (inhomogeneous shape), which is what is modelled.
    (NumPy 1.19 to 1.23 warn and build an array of objects instead, which
    [inv] then refuses; a statement below that says the loop raises holds on
    them too, at [inv] instead of here.) *)
Definition array_row2 (e : ndarray) (c : Qc) : result ndarray :=
  match e with
  | Arr0 s => Ok (Arr2 [[s; c]])
  | _ => Raise ValueError
  end.

(** The sum of the diagonal of a 2-D array ([np.trace]); it is used to state
    properties only. *)
Fixpoint diagonal (j : nat) (rows : list (list Qc)) : list Qc :=
  match rows with
  | [] => []
  | r :: rows' => nth j r 0 :: diagonal (S j) rows'
  end.

Definition trace (a : ndarray) : Qc :=
  match a with
  | Arr2 rows => fold_right Qcplus 0 (diagonal 0 rows)
  | _ => 0
  end.

(** Boolean equality of arrays. *)
Fixpoint list_eqb (u v : list Qc) : bool :=
  match u, v with
  | [], [] => true
  | a :: u', b :: v' => Qc_eq_bool a b && list_eqb u' v'
  | _, _ => false
  end.

Fixpoint rows_eqb (A B : list (list Qc)) : bool :=
  match A, B with
  | [], [] => true
  | r :: A', r' :: B' => list_eqb r r' && rows_eqb A' B'
  | _, _ => false
  end.

Definition array_eqb (a b : ndarray) : bool :=
  match a, b with
  | Arr0 s, Arr0 t => Qc_eq_bool s t
  | Arr1 u, Arr1 v => list_eqb u v
  | Arr2 A, Arr2 B => rows_eqb A B
  | _, _ => false
  end.

End Numpy.

(** ** The least-squares notebook

    [course_2/Week 1/C2M1L2.ipynb].  Plotting is left out; everything else of
    the three code cells that compute is modelled. *)

Module RLS.
Import Numpy.

(** [I = np.array([[0.2, 0.3, 0.4, 0.5, 0.6]]).T] and
    [V = np.array([[1.23, 1.38, 2.06, 2.47, 3.17]]).T]: two 5 by 1 arrays. *)
Definition I : ndarray := T (Arr2 [map float [0.2; 0.3; 0.4; 0.5; 0.6]%Q]).
Definition V : ndarray := T (Arr2 [map float [1.23; 1.38; 2.06; 2.47; 3.17]%Q]).

(** What a cell has printed. *)
Inductive output : Type :=
| Text (s : string)
| Float (q : Qc).

Definition header : string :=
  "The slope and offset parameters of the best-fit line (i.e., the resistance and offset) are [R, b]:".

(** The three [print] calls that end both solution cells:
    [print(header)], [print(x[0, 0])], [print(x[1, 0])].  The result is what
    reached the output before the cell ended, and how it ended. *)
Definition print_parameters (x : ndarray) : list output * result unit :=
  match getitem2 x 0 0 with
  | Raise e => ([Text header], Raise e)
  | Ok r =>
      match getitem2 x 1 0 with
      | Raise e => ([Text header; Float r], Raise e)
      | Ok b => ([Text header; Float r; Float b], Ok tt)
      end
  end.

(** *** Batch solution

    [H = np.ones((5, 2)); H[:, 0] = I.ravel();
     x_ls = inv(H.T.dot(H)).dot(H.T.dot(V))] *)
Definition batch_H : result ndarray := setcolumn (ones 5 2) 0 (ravel I).

Definition x_ls : result ndarray :=
  H <- batch_H ;;
  HtH <- dot (T H) H ;;
  HtH_inv <- inv HtH ;;
  HtV <- dot (T H) V ;;
  dot HtH_inv HtV.

(** *** Recursive solution *)

(** The variables the loop assigns.  [P_hist] is a 3-D array in the notebook;
    it is held as the list of its 2-D slices.  [H_k] and [K_k] are unbound
    until the first iteration. *)
Record env : Type := {
  x_k : ndarray;
  P_k : ndarray;
  H_k : option ndarray;
  K_k : option ndarray;
  x_hist : ndarray;
  P_hist : list ndarray
}.

(** [P_hist[k] = P] on the list of 2 by 2 slices. *)
Definition set_slice (hist : list ndarray) (k : nat) (P : ndarray)
  : result (list ndarray) :=
  if (k <? length hist)%nat
  then rows <- broadcast_to2 2 2 P ;; Ok (replace_nth k (Arr2 rows) hist)
  else Raise IndexError.

Section Loop.

(** The arrays the loop only reads: the data and the measurement variance. *)
Variables (I V R_k : ndarray).

(** [np.dot(H_k, np.dot(P_k, H_k.T)) + R_k], the argument of [inv] *)
Definition innovation_covariance (P H : ndarray) : result ndarray :=
  PHt <- dot P (T H) ;;
  HPHt <- dot H PHt ;;
  add HPHt R_k.

(** [K_k = np.dot(P_k, np.dot(H_k.T, inv(np.dot(H_k, np.dot(P_k, H_k.T)) + R_k)))] *)
Definition gain (P H : ndarray) : result ndarray :=
  S <- innovation_covariance P H ;;
  S_inv <- inv S ;;
  HtS_inv <- dot (T H) S_inv ;;
  dot P HtS_inv.

(** [x_k = x_k + np.dot(K_k, (V[k] - np.dot(H_k, x_k)))], with [y] for
    [V[k]] *)
Definition estimate (x K H y : ndarray) : result ndarray :=
  Hx <- dot H x ;;
  innovation <- sub y Hx ;;
  correction <- dot K innovation ;;
  add x correction.

(** [P_k = np.dot((np.eye(2,2) - np.dot(K_k, H_k)), P_k)] *)
Definition covariance (P K H : ndarray) : result ndarray :=
  KH <- dot K H ;;
  IKH <- sub (eye 2 2) KH ;;
  dot IKH P.

(** The three assignments of one iteration on a measurement [(H, y)], in the
    order of the source: the gain from the current [P_k], the estimate from
    the current [x_k] and that gain, the covariance from the current [P_k]
    and that gain.  The result is [(K_k, x_k, P_k)] after them. *)
Definition update (x P H y : ndarray) : result (ndarray * ndarray * ndarray) :=
  K <- gain P H ;;
  x' <- estimate x K H y ;;
  P' <- covariance P K H ;;
  Ok (K, x', P').

(** The body of [for k in range(num_meas)]. *)
Definition iteration (k : nat) (st : env) : result env :=
  Ik <- getitem I k ;;
  H <- array_row2 Ik (float 1.0) ;;
  K <- gain st.(P_k) H ;;
  Vk <- getitem V k ;;
  x <- estimate st.(x_k) K H Vk ;;
  P <- covariance st.(P_k) K H ;;
  P_hist' <- set_slice st.(P_hist) (k + 1) P ;;
  x_hist' <- setitem st.(x_hist) (k + 1) x ;;
  Ok {| x_k := x; P_k := P; H_k := Some H; K_k := Some K;
        x_hist := x_hist'; P_hist := P_hist' |}.

Fixpoint for_each (ks : list nat) (st : env) : result env :=
  match ks with
  | [] => Ok st
  | k :: ks' => st' <- iteration k st ;; for_each ks' st'
  end.

End Loop.

(** The initialisation of the cell, as the notebook has it. *)
Definition x_0 : ndarray := Arr1 [float 2.0; float 1.0].
Definition P_0 : ndarray := Arr2 [[float 2; float 4]; [float 1; float 2]].
Definition R_k : ndarray := Arr2 [[float 0.0225]].
Definition num_meas : nat := hd 0%nat (shape I).

Definition initial : result env :=
  x_hist0 <- setitem (zeros (num_meas + 1) 2) 0 x_0 ;;
  P_hist0 <- set_slice (repeat (zeros 2 2) (num_meas + 1)) 0 P_0 ;;
  Ok {| x_k := x_0; P_k := P_0; H_k := None; K_k := None;
        x_hist := x_hist0; P_hist := P_hist0 |}.

(** The state after [n] iterations of the loop, and after the whole loop. *)
Definition after (n : nat) : result env :=
  st <- initial ;; for_each I V R_k (seq 0 n) st.

Definition recursive_loop : result env := after num_meas.

(** Two states are indistinguishable to the loop when they hold the same
    estimate and covariance and their histories have the same shapes; the
    contents of the histories and the last [H_k] and [K_k] may differ. *)
Definition same_visible (st st' : env) : Prop :=
  st.(x_k) = st'.(x_k) /\
  st.(P_k) = st'.(P_k) /\
  shape st.(x_hist) = shape st'.(x_hist) /\
  length st.(P_hist) = length st'.(P_hist).

Definition same_outcome (r r' : result env) : Prop :=
  match r, r' with
  | Ok st, Ok st' => same_visible st st'
  | Raise e, Raise e' => e = e'
  | _, _ => False
  end.

(** Two states before the loop that differ in everything the update does not
    read. *)
Definition blank : env :=
  {| x_k := x_0; P_k := P_0; H_k := None; K_k := None;
     x_hist := zeros 6 2; P_hist := repeat (zeros 2 2) 6 |}.

Definition scribbled : env :=
  {| x_k := x_0; P_k := P_0; H_k := Some (ones 1 2); K_k := Some (ones 2 1);
     x_hist := ones 6 2; P_hist := repeat (ones 2 2) 6 |}.

(** The whole cell: the loop, then the three [print] calls on [x_k]. *)
Definition recursive_cell : list output * result unit :=
  match recursive_loop with
  | Raise e => ([], Raise e)
  | Ok st => print_parameters st.(x_k)
  end.

(** The batch cell up to its [print] calls. *)
Definition batch_cell : list output * result unit :=
  match x_ls with
  | Raise e => ([], Raise e)
  | Ok x => print_parameters x
  end.

End RLS.

(** ** The longitudinal vehicle model

    [course_1/Course1_Longitudinal_Vehicle_Model.ipynb]: the class [Vehicle]
    and the ramp simulation. *)

Module Longitudinal.

(** The attributes of a [Vehicle] object: thirteen model parameters and five
    state variables. *)
Record Vehicle : Type := {
  a_0 : Qc;
  a_1 : Qc;
  a_2 : Qc;
  GR : Qc;
  r_e : Qc;
  J_e : Qc;
  m : Qc;
  g : Qc;
  c_a : Qc;
  c_r1 : Qc;
  c : Qc;
  F_max : Qc;
  x : Qc;
  v : Qc;
  a : Qc;
  w_e : Qc;
  w_e_dot : Qc;
  sample_time : Qc
}.

(** [Vehicle.__init__] *)
Definition init : Vehicle := {|
  a_0 := float 400;
  a_1 := float 0.1;
  a_2 := float (-0.0002);
  GR := float 0.35;
  r_e := float 0.3;
  J_e := float 10;
  m := float 2000;
  g := float 9.81;
  c_a := float 1.36;
  c_r1 := float 0.01;
  c := float 10000;
  F_max := float 10000;
  x := float 0;
  v := float 5;
  a := float 0;
  w_e := float 100;
  w_e_dot := float 0;
  sample_time := float 0.01
|}.

(** Assignment to one state attribute: [self.x = q] and the like. *)
Definition set_x (q : Qc) (self : Vehicle) : Vehicle :=
  {| a_0 := self.(a_0); a_1 := self.(a_1); a_2 := self.(a_2);
     GR := self.(GR); r_e := self.(r_e); J_e := self.(J_e); m := self.(m);
     g := self.(g); c_a := self.(c_a); c_r1 := self.(c_r1); c := self.(c);
     F_max := self.(F_max);
     x := q; v := self.(v); a := self.(a); w_e := self.(w_e);
     w_e_dot := self.(w_e_dot); sample_time := self.(sample_time) |}.

Definition set_v (q : Qc) (self : Vehicle) : Vehicle :=
  {| a_0 := self.(a_0); a_1 := self.(a_1); a_2 := self.(a_2);
     GR := self.(GR); r_e := self.(r_e); J_e := self.(J_e); m := self.(m);
     g := self.(g); c_a := self.(c_a); c_r1 := self.(c_r1); c := self.(c);
     F_max := self.(F_max);
     x := self.(x); v := q; a := self.(a); w_e := self.(w_e);
     w_e_dot := self.(w_e_dot); sample_time := self.(sample_time) |}.

Definition set_a (q : Qc) (self : Vehicle) : Vehicle :=
  {| a_0 := self.(a_0); a_1 := self.(a_1); a_2 := self.(a_2);
     GR := self.(GR); r_e := self.(r_e); J_e := self.(J_e); m := self.(m);
     g := self.(g); c_a := self.(c_a); c_r1 := self.(c_r1); c := self.(c);
     F_max := self.(F_max);
     x := self.(x); v := self.(v); a := q; w_e := self.(w_e);
     w_e_dot := self.(w_e_dot); sample_time := self.(sample_time) |}.

Definition set_w_e (q : Qc) (self : Vehicle) : Vehicle :=
  {| a_0 := self.(a_0); a_1 := self.(a_1); a_2 := self.(a_2);
     GR := self.(GR); r_e := self.(r_e); J_e := self.(J_e); m := self.(m);
     g := self.(g); c_a := self.(c_a); c_r1 := self.(c_r1); c := self.(c);
     F_max := self.(F_max);
     x := self.(x); v := self.(v); a := self.(a); w_e := q;
     w_e_dot := self.(w_e_dot); sample_time := self.(sample_time) |}.

Definition set_w_e_dot (q : Qc) (self : Vehicle) : Vehicle :=
  {| a_0 := self.(a_0); a_1 := self.(a_1); a_2 := self.(a_2);
     GR := self.(GR); r_e := self.(r_e); J_e := self.(J_e); m := self.(m);
     g := self.(g); c_a := self.(c_a); c_r1 := self.(c_r1); c := self.(c);
     F_max := self.(F_max);
     x := self.(x); v := self.(v); a := self.(a); w_e := self.(w_e);
     w_e_dot := q; sample_time := self.(sample_time) |}.

(** [Vehicle.reset] *)
Definition reset (self : Vehicle) : Vehicle :=
  let self := set_x (float 0) self in
  let self := set_v (float 5) self in
  let self := set_a (float 0) self in
  let self := set_w_e (float 100) self in
  set_w_e_dot (float 0) self.

(** Python's [abs] and the division of Python numbers, which raises on a
    zero divisor.  This module is the exact reading of the class: every
    number is a Python number, no operation rounds and no power overflows.
    It is used for what [step] and [reset] do to the attributes and for the
    recordings of the ramp loop; when [step] raises on the numbers of the
    interpreter is the subject of [Longitudinal64]. *)
Definition abs (s : Qc) : Qc := if Qclt_le_dec s 0 then - s else s.

Definition divide (p q : Qc) : result Qc :=
  if Qc_eq_dec q 0 then Raise ZeroDivisionError else Ok (p / q).

(** Comparisons of Python numbers, and an [int] as a number. *)
Definition ltb (p q : Qc) : bool := if Qclt_le_dec p q then true else false.
Definition leb (p q : Qc) : bool := if Qclt_le_dec q p then false else true.
Definition of_nat (n : nat) : Qc := Q2Qc (inject_Z (Z.of_nat n)).

(** [np.arange(start, stop, step)]: [ceil((stop - start) / step)] values
    [start + i * step], the quotient being the exact one.  (NumPy rounds the
    quotient before it takes the ceiling, which can add a value; at the one
    call of the notebook, [np.arange(0, 20, 0.01)], both give 2000.) *)
Definition arange (start stop step : Qc) : list Qc :=
  let n := Z.to_nat (Qceiling ((stop - start) / step)) in
  map (fun i => start + of_nat i * step) (seq 0 n).

Section Step.

(** [math.sin] on exact numbers is not a rational function; it is a
    parameter of the model. *)
Variable sin : Qc -> Qc.

(** [Vehicle.step].  The object is mutated in place, so when a division
    raises the assignments made before it remain: the result is the object
    as the call leaves it, and how the call ended. *)
Definition step (self : Vehicle) (throttle alpha : Qc)
  : Vehicle * result unit :=
  let x_dot := self.(v) in
  let v_dot := self.(a) in
  let w_e_dot0 := self.(w_e_dot) in
  let self := set_x (self.(x) + x_dot * self.(sample_time)) self in
  let self := set_v (self.(v) + v_dot * self.(sample_time)) self in
  let self := set_w_e (self.(w_e) + w_e_dot0 * self.(sample_time)) self in
  let omega_w := self.(GR) * self.(w_e) in
  match divide (omega_w * self.(r_e)) self.(v) with
  | Raise e => (self, Raise e)
  | Ok ratio =>
      let s := ratio - 1 in
      let F_x := if Qclt_le_dec (abs s) 1 then self.(c) * s
                 else self.(F_max) in
      let F_g := self.(m) * self.(g) * sin alpha in
      let R_x := self.(c_r1) * self.(v) in
      let F_aero := self.(c_a) * self.(v) ^ 2 in
      let F_load := F_aero + R_x + F_g in
      let T_e := throttle * (self.(a_0) + self.(a_1) * self.(w_e)
                             + self.(a_2) * self.(w_e) ^ 2) in
      match divide (F_x - F_load) self.(m) with
      | Raise e => (self, Raise e)
      | Ok acc =>
          let self := set_a acc self in
          match divide (T_e - self.(GR) * self.(r_e) * F_load) self.(J_e) with
          | Raise e => (self, Raise e)
          | Ok wdot => (set_w_e_dot wdot self, Ok tt)
          end
      end
  end.

(** The objects a program can hold: the constructor's, and what [step]
    (however it ends) and [reset] leave. *)
Inductive reachable : Vehicle -> Prop :=
| reach_init : reachable init
| reach_step self throttle alpha :
    reachable self -> reachable (fst (step self throttle alpha))
| reach_reset self : reachable self -> reachable (reset self).

(** *** The ramp simulation

    The cell that resets the model, scripts the throttle, drives the model
    over the ramp and fills [x_data]; then the cell that saves
    [(t_data, x_data)]. *)

(** [math.atan2] is a parameter of the model, like [math.sin]. *)
Variable atan2 : Qc -> Qc -> Qc.

(** [x_data[i] = q] and [x_data[i]] on a 1-D array. *)
Definition store (i : nat) (q : Qc) (l : list Qc) : result (list Qc) :=
  if (i <? length l)%nat then Ok (Numpy.replace_nth i q l)
  else Raise IndexError.

Definition load (i : nat) (l : list Qc) : result Qc :=
  match nth_error l i with
  | Some q => Ok q
  | None => Raise IndexError
  end.

(** [time_end = 20; t_data = np.arange(0, time_end, sample_time)], with the
    notebook's global [sample_time = 0.01]. *)
Definition time_end : Qc := float 20.
Definition t_data : list Qc := arange (float 0) time_end (float 0.01).
Definition t_len : nat := length t_data.

(** The value the first loop of the cell assigns to [throttle_data[t]]. *)
Definition throttle_profile (t : nat) : Qc :=
  let quarter := of_nat t_len / float 4 in
  if leb (of_nat t) quarter
  then float 0.2 + float 0.3 * of_nat t / quarter
  else if ltb quarter (of_nat t)
          && leb (of_nat t) (float 3 * of_nat t_len / float 4)
       then float 0.5
       else float 0.5 - float 0.001 * (of_nat t_len - of_nat t) / float 4.

Definition throttle_data : list Qc := map throttle_profile (seq 0 t_len).

(** The arrays the second loop fills. *)
Record recording : Type := {
  x_data : list Qc;
  v_data : list Qc;
  alpha_data : list Qc
}.

(** The body of [for i in range(t_len)] of the second loop.  A zero divisor
    in [step] ends the loop with the exception, as [step] reports it. *)
Definition ramp_iteration (i : nat) (st : Vehicle * recording)
  : result (Vehicle * recording) :=
  let (model, rec) := st in
  xs <- store i model.(x) rec.(x_data) ;;
  vs <- store i model.(v) rec.(v_data) ;;
  alphas <- (if ltb model.(x) (float 60)
             then store i (atan2 (float 3) (float 60)) rec.(alpha_data)
             else if ltb model.(x) (float 150)
                  then store i (atan2 (float 9) (float 90)) rec.(alpha_data)
                  else Ok rec.(alpha_data)) ;;
  throttle <- load i throttle_data ;;
  alpha <- load i alphas ;;
  match step model throttle alpha with
  | (model', Ok _) =>
      Ok (model', {| x_data := xs; v_data := vs; alpha_data := alphas |})
  | (_, Raise e) => Raise e
  end.

Fixpoint ramp_loop (indices : list nat) (st : Vehicle * recording)
  : result (Vehicle * recording) :=
  match indices with
  | [] => Ok st
  | i :: rest => st' <- ramp_iteration i st ;; ramp_loop rest st'
  end.

(** The cell on a model object: [np.zeros_like(t_data)] three times,
    [model.reset()], then the loop. *)
Definition ramp_cell (model : Vehicle) : result (Vehicle * recording) :=
  let zeros := repeat (float 0) t_len in
  ramp_loop (seq 0 t_len)
    (reset model, {| x_data := zeros; v_data := zeros; alpha_data := zeros |}).

(** [data = np.vstack([t_data, x_data]).T], the rows [np.savetxt] writes to
    [xdata.txt]. *)
Definition xdata (model : Vehicle) : result (list (Qc * Qc)) :=
  st <- ramp_cell model ;;
  Ok (combine t_data (snd st).(x_data)).

(** The objects before each step of a run of successful steps from [first];
    [last] is the object after the final step. *)
Inductive steps_from : Vehicle -> list Vehicle -> Vehicle -> Prop :=
| steps_none first : steps_from first [] first
| steps_next first throttle alpha next rest last :
    step first throttle alpha = (next, Ok tt) ->
    steps_from next rest last ->
    steps_from first (first :: rest) last.

End Step.

(** Explicit Euler on the positions of a run: each object's position is the
    previous one's plus its velocity times the sample time; [last] follows
    the final element of the list. *)
Fixpoint euler_chain (models : list Vehicle) (last : Vehicle) : Prop :=
  match models with
  | [] => True
  | model :: rest =>
      (hd last rest).(x) = model.(x) + model.(v) * model.(sample_time) /\
      euler_chain rest last
  end.

(** The sine on a level road: [math.sin] is only called at [alpha = 0] when
    this function stands for it. *)
Definition level_sin (alpha : Qc) : Qc := 0.

(** A road without ramp: the angle function that stands for [math.atan2]
    when every slope is zero. *)
Definition no_ramp (rise run : Qc) : Qc := 0.

(** [lo <= q <= hi] as a test. *)
Definition within (lo hi q : Qc) : bool := leb lo q && leb q hi.

(** The thirteen parameter attributes of an object. *)
Definition parameters (self : Vehicle) : list Qc :=
  [self.(a_0); self.(a_1); self.(a_2); self.(GR); self.(r_e); self.(J_e);
   self.(m); self.(g); self.(c_a); self.(c_r1); self.(c); self.(F_max);
   self.(sample_time)].

(** The five state attributes [x, v, a, w_e, w_e_dot]. *)
Definition state (self : Vehicle) : list Qc :=
  [self.(x); self.(v); self.(a); self.(w_e); self.(w_e_dot)].

End Longitudinal.

(** ** The contract of the estimator, in the words of the specification

    Two-vectors and 2 by 2 matrices with the usual products.  These
    definitions follow the specification's formulas; they are compared with
    the notebook's code below. *)

Module Contract.

Record vec2 : Type := { c0 : Qc; c1 : Qc }.
Record mat2 : Type := { m00 : Qc; m01 : Qc; m10 : Qc; m11 : Qc }.

(** [H . u] for a row [H] and a column [u] *)
Definition row_col (H u : vec2) : Qc := H.(c0) * u.(c0) + H.(c1) * u.(c1).

(** [P . Ht], a column *)
Definition mat_col (P : mat2) (H : vec2) : vec2 :=
  {| c0 := P.(m00) * H.(c0) + P.(m01) * H.(c1);
     c1 := P.(m10) * H.(c0) + P.(m11) * H.(c1) |}.

(** [A . B] *)
Definition mat_mat (A B : mat2) : mat2 :=
  {| m00 := A.(m00) * B.(m00) + A.(m01) * B.(m10);
     m01 := A.(m00) * B.(m01) + A.(m01) * B.(m11);
     m10 := A.(m10) * B.(m00) + A.(m11) * B.(m10);
     m11 := A.(m10) * B.(m01) + A.(m11) * B.(m11) |}.

(** [K . H], a column times a row *)
Definition col_row (K H : vec2) : mat2 :=
  {| m00 := K.(c0) * H.(c0); m01 := K.(c0) * H.(c1);
     m10 := K.(c1) * H.(c0); m11 := K.(c1) * H.(c1) |}.

Definition identity : mat2 := {| m00 := 1; m01 := 0; m10 := 0; m11 := 1 |}.

Definition mat_sub (A B : mat2) : mat2 :=
  {| m00 := A.(m00) - B.(m00); m01 := A.(m01) - B.(m01);
     m10 := A.(m10) - B.(m10); m11 := A.(m11) - B.(m11) |}.

(** 1. Innovation covariance [S = H.P.Ht + r]. *)
Definition spec_S (P : mat2) (H : vec2) (r : Qc) : Qc :=
  row_col H (mat_col P H) + r.

(** 2. Gain [K = P.Ht.S^-1]. *)
Definition spec_K (P : mat2) (H : vec2) (r : Qc) : vec2 :=
  let PHt := mat_col P H in
  {| c0 := PHt.(c0) * / spec_S P H r; c1 := PHt.(c1) * / spec_S P H r |}.

(** 3. Updated estimate [x' = x + K.(y - H.x)]. *)
Definition spec_x (x : vec2) (P : mat2) (H : vec2) (y r : Qc) : vec2 :=
  let K := spec_K P H r in
  {| c0 := x.(c0) + K.(c0) * (y - row_col H x);
     c1 := x.(c1) + K.(c1) * (y - row_col H x) |}.

(** 4. Updated covariance [P' = (I - K.H).P]. *)
Definition spec_P (P : mat2) (H : vec2) (r : Qc) : mat2 :=
  mat_mat (mat_sub identity (col_row (spec_K P H r) H)) P.

Definition tr (P : mat2) : Qc := P.(m00) + P.(m11).

Definition symmetric (P : mat2) : Prop := P.(m01) = P.(m10).

(** Non-negative-definite: the quadratic form [ut.P.u] is never negative. *)
Definition nonneg_definite (P : mat2) : Prop :=
  forall u : vec2, 0 <= row_col u (mat_col P u).

(** The arrays that hold a vector (shape (2,)), a matrix (shape (2, 2)), an
    observation row (shape (1, 2)), a gain (shape (2, 1)). *)
Definition vector (x : vec2) : Numpy.ndarray := Numpy.Arr1 [x.(c0); x.(c1)].
Definition matrix (P : mat2) : Numpy.ndarray :=
  Numpy.Arr2 [[P.(m00); P.(m01)]; [P.(m10); P.(m11)]].
Definition row (H : vec2) : Numpy.ndarray := Numpy.Arr2 [[H.(c0); H.(c1)]].
Definition col (K : vec2) : Numpy.ndarray := Numpy.Arr2 [[K.(c0)]; [K.(c1)]].

(** The observation row the loop builds from a current: [[current, 1]]. *)
Definition observation (current : Qc) : vec2 := {| c0 := current; c1 := 1 |}.

(** The notebook's initial state [x_0], [P_0] and the prior its text
    documents, [R ~ N(4, 9.0)], [b ~ N(0, 0.2)], as vectors and matrices. *)
Definition code_x0 : vec2 := {| c0 := float 2.0; c1 := float 1.0 |}.
Definition code_P0 : mat2 :=
  {| m00 := float 2; m01 := float 4; m10 := float 1; m11 := float 2 |}.
Definition documented_x0 : vec2 := {| c0 := float 4; c1 := float 0 |}.
Definition documented_P0 : mat2 :=
  {| m00 := float 9.0; m01 := float 0; m10 := float 0; m11 := float 0.2 |}.

End Contract.

(** ** Shapes of a run

    The conditions under which the body of the loop runs through: the table
    of currents yields a scalar at the index (a 1-D table, such as
    [I.ravel()]), the table of voltages a row of one number (a 5 by 1 table,
    such as [V]), the state holds a 2-vector and a 2 by 2 matrix, and the
    histories have [n] rows and slices. *)

Module Run.
Import Numpy RLS Contract.






End Run.

(** ** The update on binary64

    The three update statements of the loop on the arithmetic of the code:
    arrays of doubles of rank 1 and 2, and the array operations the
    statements use, on the shapes they meet there (no scalar operand, no
    broadcasting of unequal shapes, inverse of a 1 by 1 matrix only).  Every
    product and every sum is rounded to nearest, and a sum of products is
    accumulated in index order from zero; a linear-algebra library that
    fuses a multiplication with an addition, or sums in another order, may
    differ from this in the last digit. *)

Module Binary64.

Local Open Scope float_scope.

Inductive ndarray : Type :=
| Arr1 (l : list PrimFloat.float)
| Arr2 (rows : list (list PrimFloat.float)).

Definition nrows (rows : list (list PrimFloat.float)) : nat := length rows.

Definition ncols (rows : list (list PrimFloat.float)) : nat :=
  match rows with
  | [] => 0%nat
  | r :: _ => length r
  end.

Definition column (j : nat) (rows : list (list PrimFloat.float))
  : list PrimFloat.float :=
  map (fun r => nth j r 0) rows.

Definition transpose (rows : list (list PrimFloat.float))
  : list (list PrimFloat.float) :=
  map (fun j => column j rows) (seq 0 (ncols rows)).

(** [a.T] *)
Definition T (a : ndarray) : ndarray :=
  match a with
  | Arr2 rows => Arr2 (transpose rows)
  | _ => a
  end.

(** Sum of products over two lists of the same length. *)
Definition inner (u v : list PrimFloat.float) : PrimFloat.float :=
  fold_left (fun acc p => acc + fst p * snd p) (combine u v) 0.

(** [np.dot(a, b)] with a 2-D first operand. *)
Definition dot (a b : ndarray) : result ndarray :=
  match a, b with
  | Arr2 A, Arr1 v =>
      if (ncols A =? length v)%nat then Ok (Arr1 (map (fun r => inner r v) A))
      else Raise ValueError
  | Arr2 A, Arr2 B =>
      if (ncols A =? nrows B)%nat
      then Ok (Arr2 (map (fun r => map (inner r) (transpose B)) A))
      else Raise ValueError
  | Arr1 _, _ => Raise Unmodelled
  end.

(** Element-wise binary operation on two arrays of the same shape. *)
Definition elementwise (f : PrimFloat.float -> PrimFloat.float -> PrimFloat.float)
    (a b : ndarray) : result ndarray :=
  match a, b with
  | Arr1 u, Arr1 v =>
      if (length u =? length v)%nat
      then Ok (Arr1 (Numpy.map2 f u v))
      else Raise Unmodelled
  | Arr2 A, Arr2 B =>
      if ((nrows A =? nrows B) && (ncols A =? ncols B))%nat%bool
      then Ok (Arr2 (Numpy.map2 (Numpy.map2 f) A B))
      else Raise Unmodelled
  | _, _ => Raise Unmodelled
  end.

Definition add : ndarray -> ndarray -> result ndarray :=
  elementwise PrimFloat.add.
Definition sub : ndarray -> ndarray -> result ndarray :=
  elementwise PrimFloat.sub.

(** [numpy.linalg.inv] of a 1 by 1 matrix. *)
Definition inv (a : ndarray) : result ndarray :=
  match a with
  | Arr2 [[s]] => if s =? 0 then Raise LinAlgError else Ok (Arr2 [[1 / s]])
  | _ => Raise Unmodelled
  end.

(** [np.eye(n, m)] *)
Definition eye (n m : nat) : ndarray :=
  Arr2 (map (fun i => map (fun j => if (i =? j)%nat then 1 else 0) (seq 0 m))
          (seq 0 n)).

Section Loop.

Variable R_k : ndarray.

(** [K_k = np.dot(P_k, np.dot(H_k.T, inv(np.dot(H_k, np.dot(P_k, H_k.T)) + R_k)))] *)
Definition gain (P H : ndarray) : result ndarray :=
  PHt <- dot P (T H) ;;
  HPHt <- dot H PHt ;;
  S <- add HPHt R_k ;;
  S_inv <- inv S ;;
  HtS_inv <- dot (T H) S_inv ;;
  dot P HtS_inv.

(** [x_k = x_k + np.dot(K_k, (V[k] - np.dot(H_k, x_k)))], with [y] for
    [V[k]] *)
Definition estimate (x K H y : ndarray) : result ndarray :=
  Hx <- dot H x ;;
  innovation <- sub y Hx ;;
  correction <- dot K innovation ;;
  add x correction.

(** [P_k = np.dot((np.eye(2,2) - np.dot(K_k, H_k)), P_k)] *)
Definition covariance (P K H : ndarray) : result ndarray :=
  KH <- dot K H ;;
  IKH <- sub (eye 2 2) KH ;;
  dot IKH P.

(** The three assignments, in the order of the source. *)
Definition update (x P H y : ndarray) : result (ndarray * ndarray * ndarray) :=
  K <- gain P H ;;
  x' <- estimate x K H y ;;
  P' <- covariance P K H ;;
  Ok (K, x', P').

End Loop.

(** The documented prior [x = [4, 0]], [P = diag(9, 0.2)], the variance
    [0.0225] and the first measurement [(0.2, 1.23)] as arrays of doubles. *)
Definition documented_x0 : ndarray := Arr1 [4; 0].
Definition documented_P0 : ndarray := Arr2 [[9; 0]; [0; 0.2]].
Definition R_k : ndarray := Arr2 [[0.0225]].
Definition H_0 : ndarray := Arr2 [[0.2; 1]].
Definition V_0 : ndarray := Arr1 [1.23].

End Binary64.

(** ** The vehicle model on binary64

    [Vehicle.step] on the numbers the interpreter computes with, for the
    question of when it raises.  A number is a double together with its
    kind: a Python number ([float], or an [int] of the constructor, held as
    the double equal to it) or a NumPy scalar ([np.float64], as the entries
    read from [throttle_data] and [alpha_data] are).  The kind decides what
    a zero divisor and an overflowing power do: between Python numbers they
    raise; as soon as one operand is a NumPy scalar the result is a NumPy
    scalar, [inf] or [nan], and a warning. *)

Module Longitudinal64.

Local Open Scope float_scope.

Record number : Type := { val : PrimFloat.float; numpy : bool }.

Definition py (f : PrimFloat.float) : number := {| val := f; numpy := false |}.
Definition np (f : PrimFloat.float) : number := {| val := f; numpy := true |}.

(** [p + q], [p - q], [p * q] *)
Definition add (p q : number) : number :=
  {| val := p.(val) + q.(val); numpy := p.(numpy) || q.(numpy) |}.
Definition sub (p q : number) : number :=
  {| val := p.(val) - q.(val); numpy := p.(numpy) || q.(numpy) |}.
Definition mul (p q : number) : number :=
  {| val := p.(val) * q.(val); numpy := p.(numpy) || q.(numpy) |}.

(** [p / q] *)
Definition truediv (p q : number) : result number :=
  if (q.(val) =? 0) && negb (p.(numpy) || q.(numpy))
  then Raise ZeroDivisionError
  else Ok {| val := p.(val) / q.(val); numpy := p.(numpy) || q.(numpy) |}.

Record Vehicle : Type := {
  a_0 : number;
  a_1 : number;
  a_2 : number;
  GR : number;
  r_e : number;
  J_e : number;
  m : number;
  g : number;
  c_a : number;
  c_r1 : number;
  c : number;
  F_max : number;
  x : number;
  v : number;
  a : number;
  w_e : number;
  w_e_dot : number;
  sample_time : number
}.

(** [Vehicle.__init__] *)
Definition init : Vehicle := {|
  a_0 := py 400;
  a_1 := py 0.1;
  a_2 := py (-0.0002);
  GR := py 0.35;
  r_e := py 0.3;
  J_e := py 10;
  m := py 2000;
  g := py 9.81;
  c_a := py 1.36;
  c_r1 := py 0.01;
  c := py 10000;
  F_max := py 10000;
  x := py 0;
  v := py 5;
  a := py 0;
  w_e := py 100;
  w_e_dot := py 0;
  sample_time := py 0.01
|}.

Definition set_x (q : number) (self : Vehicle) : Vehicle :=
  {| a_0 := self.(a_0); a_1 := self.(a_1); a_2 := self.(a_2);
     GR := self.(GR); r_e := self.(r_e); J_e := self.(J_e); m := self.(m);
     g := self.(g); c_a := self.(c_a); c_r1 := self.(c_r1); c := self.(c);
     F_max := self.(F_max);
     x := q; v := self.(v); a := self.(a); w_e := self.(w_e);
     w_e_dot := self.(w_e_dot); sample_time := self.(sample_time) |}.

Definition set_v (q : number) (self : Vehicle) : Vehicle :=
  {| a_0 := self.(a_0); a_1 := self.(a_1); a_2 := self.(a_2);
     GR := self.(GR); r_e := self.(r_e); J_e := self.(J_e); m := self.(m);
     g := self.(g); c_a := self.(c_a); c_r1 := self.(c_r1); c := self.(c);
     F_max := self.(F_max);
     x := self.(x); v := q; a := self.(a); w_e := self.(w_e);
     w_e_dot := self.(w_e_dot); sample_time := self.(sample_time) |}.

Definition set_a (q : number) (self : Vehicle) : Vehicle :=
  {| a_0 := self.(a_0); a_1 := self.(a_1); a_2 := self.(a_2);
     GR := self.(GR); r_e := self.(r_e); J_e := self.(J_e); m := self.(m);
     g := self.(g); c_a := self.(c_a); c_r1 := self.(c_r1); c := self.(c);
     F_max := self.(F_max);
     x := self.(x); v := self.(v); a := q; w_e := self.(w_e);
     w_e_dot := self.(w_e_dot); sample_time := self.(sample_time) |}.

Definition set_w_e (q : number) (self : Vehicle) : Vehicle :=
  {| a_0 := self.(a_0); a_1 := self.(a_1); a_2 := self.(a_2);
     GR := self.(GR); r_e := self.(r_e); J_e := self.(J_e); m := self.(m);
     g := self.(g); c_a := self.(c_a); c_r1 := self.(c_r1); c := self.(c);
     F_max := self.(F_max);
     x := self.(x); v := self.(v); a := self.(a); w_e := q;
     w_e_dot := self.(w_e_dot); sample_time := self.(sample_time) |}.

Definition set_w_e_dot (q : number) (self : Vehicle) : Vehicle :=
  {| a_0 := self.(a_0); a_1 := self.(a_1); a_2 := self.(a_2);
     GR := self.(GR); r_e := self.(r_e); J_e := self.(J_e); m := self.(m);
     g := self.(g); c_a := self.(c_a); c_r1 := self.(c_r1); c := self.(c);
     F_max := self.(F_max);
     x := self.(x); v := self.(v); a := self.(a); w_e := self.(w_e);
     w_e_dot := q; sample_time := self.(sample_time) |}.

(** [Vehicle.reset] *)
Definition reset (self : Vehicle) : Vehicle :=
  let self := set_x (py 0) self in
  let self := set_v (py 5) self in
  let self := set_a (py 0) self in
  let self := set_w_e (py 100) self in
  set_w_e_dot (py 0) self.

Section Step.

(** The sine and the power function of the C library, which [math.sin] and
    [**] call, are parameters of the model. *)
Variable sin : PrimFloat.float -> PrimFloat.float.
Variable pow : PrimFloat.float -> PrimFloat.float -> PrimFloat.float.

(** [math.sin(p)]: the argument is converted to a double and the result is a
    Python [float]; a [nan] from a number that is not [nan], or an infinity
    from a finite number, raises [ValueError] (math domain error). *)
Definition math_sin (p : number) : result number :=
  let r := sin p.(val) in
  if (is_nan r && negb (is_nan p.(val)))
     || (is_infinity r && is_finite p.(val))
  then Raise ValueError
  else Ok (py r).

(** [iv ** 2] on a Python [float]: the special values are answered without
    the library; otherwise the library is called on the absolute value, and
    an infinite result raises [OverflowError]. *)
Definition float_pow_2 (iv : PrimFloat.float) : result PrimFloat.float :=
  if is_nan iv then Ok iv
  else if is_infinity iv then Ok (abs iv)
  else if iv =? 0 then Ok 0
  else if abs iv =? 1 then Ok 1
  else let ix := pow (abs iv) 2 in
       if is_infinity ix then Raise OverflowError else Ok ix.

(** [p ** 2]: on a NumPy scalar the library's result is returned as it is. *)
Definition power_2 (p : number) : result number :=
  if p.(numpy) then Ok (np (pow p.(val) 2))
  else ix <- float_pow_2 p.(val) ;; Ok (py ix).

(** [Vehicle.step].  The object is mutated in place, so when a statement
    raises the assignments made before it remain: the result is the object
    as the call leaves it, and how the call ended. *)
Definition step (self : Vehicle) (throttle alpha : number)
  : Vehicle * result unit :=
  let x_dot := self.(v) in
  let v_dot := self.(a) in
  let w_e_dot0 := self.(w_e_dot) in
  let self := set_x (add self.(x) (mul x_dot self.(sample_time))) self in
  let self := set_v (add self.(v) (mul v_dot self.(sample_time))) self in
  let self := set_w_e (add self.(w_e) (mul w_e_dot0 self.(sample_time))) self in
  let omega_w := mul self.(GR) self.(w_e) in
  match truediv (mul omega_w self.(r_e)) self.(v) with
  | Raise e => (self, Raise e)
  | Ok ratio =>
  let s := sub ratio (py 1) in
  let F_x := if abs s.(val) <? 1 then mul self.(c) s else self.(F_max) in
  match math_sin alpha with
  | Raise e => (self, Raise e)
  | Ok sin_alpha =>
  let F_g := mul (mul self.(m) self.(g)) sin_alpha in
  let R_x := mul self.(c_r1) self.(v) in
  match power_2 self.(v) with
  | Raise e => (self, Raise e)
  | Ok v_2 =>
  let F_aero := mul self.(c_a) v_2 in
  let F_load := add (add F_aero R_x) F_g in
  match power_2 self.(w_e) with
  | Raise e => (self, Raise e)
  | Ok w_e_2 =>
  let T_e := mul throttle (add (add self.(a_0) (mul self.(a_1) self.(w_e)))
                             (mul self.(a_2) w_e_2)) in
  match truediv (sub F_x F_load) self.(m) with
  | Raise e => (self, Raise e)
  | Ok acc =>
  let self := set_a acc self in
  match truediv (sub T_e (mul (mul self.(GR) self.(r_e)) F_load))
          self.(J_e) with
  | Raise e => (self, Raise e)
  | Ok wdot => (set_w_e_dot wdot self, Ok tt)
  end end end end end end.

End Step.

(** The thirteen parameter attributes and the five state attributes. *)
Definition parameters (self : Vehicle) : list number :=
  [self.(a_0); self.(a_1); self.(a_2); self.(GR); self.(r_e); self.(J_e);
   self.(m); self.(g); self.(c_a); self.(c_r1); self.(c); self.(F_max);
   self.(sample_time)].

Definition state (self : Vehicle) : list number :=
  [self.(x); self.(v); self.(a); self.(w_e); self.(w_e_dot)].

(** The velocity and the engine speed after the integration at the head of
    [step]. *)
Definition integrated_v (self : Vehicle) : number :=
  add self.(v) (mul self.(a) self.(sample_time)).

Definition integrated_w_e (self : Vehicle) : number :=
  add self.(w_e) (mul self.(w_e_dot) self.(sample_time)).

(** A sine for a level road, where [math.sin] is only called at zero, and a
    power function that squares by one rounded product. *)
Definition level_sin (alpha : PrimFloat.float) : PrimFloat.float := 0.
Definition product_pow (base exponent : PrimFloat.float) : PrimFloat.float :=
  base * base.

End Longitudinal64.

(** * Properties *)

Import Numpy RLS Contract.

Lemma float_0 : float 0 = 0.
Proof. reflexivity. Qed.


Ltac run_numpy :=
  cbv [update gain innovation_covariance estimate covariance
       dot add sub elementwise inv T transpose column ncols nrows scale
       map seq nth inner bind bdim stretch map2 combine repeat length
       Nat.eqb fst snd eye vector matrix row col observation
       c0 c1 m00 m01 m10 m11].

(** Equalities between arrays are reduced to equalities between their
    entries. *)
Ltac entrywise :=
  repeat match goal with
    | |- Ok _ = Ok _ => apply f_equal
    | |- Arr2 _ = Arr2 _ => apply f_equal
    | |- Arr1 _ = Arr1 _ => apply f_equal
    | |- Arr0 _ = Arr0 _ => apply f_equal
    | |- Some _ = Some _ => apply f_equal
    | |- (_, _) = (_, _) => apply f_equal2
    | |- _ :: _ = _ :: _ => apply f_equal2
    | |- [] = [] => reflexivity
    end.

Ltac unfold_contract :=
  cbv [spec_P spec_x spec_K spec_S row_col mat_col mat_mat mat_sub col_row
       identity tr c0 c1 m00 m01 m10 m11] in *.

Lemma innovation_covariance_refines (P : mat2) (H : vec2) (r : Qc) :
  innovation_covariance (Arr2 [[r]]) (matrix P) (row H)
  = Ok (Arr2 [[spec_S P H r]]).
Proof.
  destruct P as [a b c d], H as [h0 h1]. run_numpy.
  entrywise. unfold_contract. ring.
Qed.

Lemma gain_refines (P : mat2) (H : vec2) (r : Qc) :
  gain (Arr2 [[r]]) (matrix P) (row H)
  = if Qc_eq_dec (spec_S P H r) 0 then Raise LinAlgError
    else Ok (col (spec_K P H r)).
Proof.
  unfold gain. rewrite innovation_covariance_refines.
  cbv [bind inv]. destruct (Qc_eq_dec (spec_S P H r) 0) as [E | E].
  - reflexivity.
  - set (S := spec_S P H r) in *.
    destruct P as [a b c d], H as [h0 h1]. run_numpy.
    entrywise; unfold_contract; fold S; field; exact E.
Qed.

Lemma estimate_refines (x K H : vec2) (y : Qc) :
  estimate (vector x) (col K) (row H) (Arr1 [y])
  = Ok (vector {| c0 := x.(c0) + K.(c0) * (y - row_col H x);
                  c1 := x.(c1) + K.(c1) * (y - row_col H x) |}).
Proof.
  destruct x as [x0 x1], K as [k0 k1], H as [h0 h1]. run_numpy.
  entrywise; unfold_contract; ring.
Qed.

Lemma covariance_refines (P : mat2) (K H : vec2) :
  covariance (matrix P) (col K) (row H)
  = Ok (matrix (mat_mat (mat_sub identity (col_row K H)) P)).
Proof.
  destruct P as [a b c d], K as [k0 k1], H as [h0 h1]. run_numpy.
  entrywise; unfold_contract; ring.
Qed.

(** One update on a vector, a matrix, an observation row and a scalar
    measurement: it raises exactly when the innovation covariance is zero,
    and otherwise returns the contract's gain, estimate and covariance. *)
Lemma update_refines (x : vec2) (P : mat2) (H : vec2) (y r : Qc) :
  update (Arr2 [[r]]) (vector x) (matrix P) (row H) (Arr1 [y])
  = if Qc_eq_dec (spec_S P H r) 0 then Raise LinAlgError
    else Ok (col (spec_K P H r), vector (spec_x x P H y r),
             matrix (spec_P P H r)).
Proof.
  unfold update. rewrite gain_refines.
  destruct (Qc_eq_dec (spec_S P H r) 0) as [E | E]; [reflexivity |].
  cbv [bind]. rewrite estimate_refines, covariance_refines. reflexivity.
Qed.


Lemma set_slice_matrix (hist : list ndarray) (k : nat) (P : mat2) :
  (k < length hist)%nat ->
  set_slice hist k (matrix P) = Ok (replace_nth k (matrix P) hist).
Proof.
  intros Hk. unfold set_slice.
  apply Nat.ltb_lt in Hk. rewrite Hk. destruct P as [a b c d]. reflexivity.
Qed.

Lemma setitem_vector (hist : ndarray) (n k : nat) (x : vec2) :
  shape hist = [n; 2%nat] -> (k < n)%nat ->
  exists rows, hist = Arr2 rows /\
    setitem hist k (vector x) = Ok (Arr2 (replace_nth k [x.(c0); x.(c1)] rows)).
Proof.
  intros Hs Hk. destruct hist as [s | l | rows]; try discriminate.
  exists rows. split; [reflexivity |].
  cbn [shape] in Hs. injection Hs as Hn Hc.
  unfold setitem. rewrite Hn, Hc. apply Nat.ltb_lt in Hk. rewrite Hk.
  destruct x as [x0 x1]. reflexivity.
Qed.

(** C2.  The update statements of one iteration, run on an observation row
    [H = [current, 1]], a scalar target [y], the state [(x, P)] and the
    variance [r], compute exactly the innovation covariance
    [S = H.P.Ht + r], the gain [K = P.Ht.S^-1] from the pre-update [P], the
    estimate [x' = x + K.(y - H.x)] from the pre-update [x] and the
    covariance [P' = (I - K.H).P]; the inversion raises when [S] is zero.
    The iteration of the notebook does not reach them.  It builds [H_k] from
    [I[k]], which is an array of shape (1,) and not a number, so at every
    index of the table and in every state it raises [ValueError] (beyond
    the table, [IndexError]): no [K], [x'] or [P'] is computed. *)
Theorem iteration_raises_before_the_update :
  (forall (k : nat) (st : env),
      iteration RLS.I RLS.V RLS.R_k k st
      = Raise (if (k <? num_meas)%nat then ValueError else IndexError)) /\
  (forall (x : vec2) (P : mat2) (current y r : Qc),
      let H := observation current in
      innovation_covariance (Arr2 [[r]]) (matrix P) (row H)
      = Ok (Arr2 [[spec_S P H r]]) /\
      update (Arr2 [[r]]) (vector x) (matrix P) (row H) (Arr1 [y])
      = if Qc_eq_dec (spec_S P H r) 0 then Raise LinAlgError
        else Ok (col (spec_K P H r), vector (spec_x x P H y r),
                 matrix (spec_P P H r))).
Proof.
  split.
  - intros k st. do 5 (destruct k as [| k]; [reflexivity |]).
    destruct k; reflexivity.
  - intros x P current y r H. split.
    + apply innovation_covariance_refines.
    + apply update_refines.
Qed.

(** ** Order facts on exact rationals *)

(** Inequalities between canonical rationals are decided on their
    underlying fractions. *)
Ltac to_Q :=
  unfold Qcle, Qclt, Qcdiv, Qcminus, Qcinv, Qcopp, Qcmult, Qcplus, Q2Qc in *;
  cbn [this] in *;
  repeat rewrite Qred_correct in *.

Lemma Qcinv_pos (s : Qc) : 0 < s -> 0 < / s.
Proof. to_Q. intros Hs. apply Qinv_lt_0_compat. exact Hs. Qed.

Lemma Qclt_neq_0 (s : Qc) : 0 < s -> s <> 0.
Proof. intros Hs E. rewrite E in Hs. to_Q. lra. Qed.

Lemma Qcle_by_difference (p q d : Qc) : q - p = d -> 0 <= d -> p <= q.
Proof. intros E Hd. subst d. to_Q. lra. Qed.

Lemma sum_squares_scaled_nonneg (u w i : Qc) :
  0 < i -> 0 <= (u * u + w * w) * i.
Proof. intros Hi. to_Q. nra. Qed.

(** ** Symmetry and trace under one update *)

Lemma T_matrix (P : mat2) : T (matrix P) = matrix P <-> symmetric P.
Proof.
  destruct P as [a b c d]. unfold symmetric. cbn. split.
  - intros E. injection E as E1 E2. congruence.
  - intros E. rewrite E. reflexivity.
Qed.

Lemma trace_matrix (P : mat2) : trace (matrix P) = tr P.
Proof. destruct P as [a b c d]. cbn. unfold tr. cbn. ring. Qed.

Lemma positive_innovation (P : mat2) (H : vec2) (r : Qc) :
  0 < r -> 0 <= row_col H (mat_col P H) -> 0 < spec_S P H r.
Proof. unfold spec_S. generalize (row_col H (mat_col P H)). intros q. to_Q. lra. Qed.

Lemma spec_P_symmetric (P : mat2) (H : vec2) (r : Qc) :
  symmetric P -> symmetric (spec_P P H r).
Proof.
  destruct P as [a b c d], H as [h0 h1]. unfold symmetric. cbn [m01 m10].
  intros E. subst c. unfold_contract. ring.
Qed.

(** The trace drops by [|P.Ht|^2 / S]. *)
Lemma spec_P_trace_drop (P : mat2) (H : vec2) (r : Qc) :
  symmetric P ->
  tr P - tr (spec_P P H r)
  = ((mat_col P H).(c0) * (mat_col P H).(c0)
     + (mat_col P H).(c1) * (mat_col P H).(c1)) * / spec_S P H r.
Proof.
  destruct P as [a b c d], H as [h0 h1]. unfold symmetric. cbn [m01 m10].
  intros E. subst c. unfold_contract. ring.
Qed.

Lemma documented_P0_nonneg_definite : nonneg_definite documented_P0.
Proof.
  intros [u0 u1]. unfold documented_P0, float. unfold_contract. to_Q. nra.
Qed.

(** As C3 is worded, on the arithmetic of the code.  The documented prior
    [P = diag(9, 0.2)] is symmetric and non-negative-definite and
    [r = 0.0225] is positive; one update in binary64 from it, with the first
    measurement [(0.2, 1.23)], returns a covariance whose off-diagonal
    elements differ in the last digit. *)
Lemma update_not_symmetric_in_binary64 :
  symmetric documented_P0 /\ nonneg_definite documented_P0 /\
  0 < float 0.0225 /\
  exists K x' P',
    Binary64.update Binary64.R_k Binary64.documented_x0
      Binary64.documented_P0 Binary64.H_0 Binary64.V_0
    = Ok (K, x', P') /\
    P' = (Binary64.Arr2 [[3.437768240343347; -0.6180257510729614];
                         [-0.6180257510729615; 0.13133047210300428]])%float /\
    Binary64.T P' <> P'.
Proof.
  split; [reflexivity |]. split; [exact documented_P0_nonneg_definite |].
  split; [reflexivity |].
  do 3 eexists. split; [vm_compute; reflexivity |]. split; [reflexivity |].
  intros E. vm_compute in E.
  apply (f_equal (fun a => match a with
                           | Binary64.Arr2 [[_; q]; _] =>
                               PrimFloat.eqb q (-0.6180257510729614)
                           | _ => false
                           end)) in E.
  vm_compute in E. discriminate E.
Qed.

(** C3, amended.  In exact arithmetic, for a state whose covariance [P] is
    symmetric and non-negative-definite, any observation row, any
    measurement and a variance [r > 0], one update returns a 2 by 2 matrix
    [P'] that is symmetric and whose trace is at most the trace of [P].  The
    code computes in binary64 and applies no symmetrisation, and there [P']
    is not exactly symmetric: from the documented prior and the first
    measurement its off-diagonal elements are -0.6180257510729614 and
    -0.6180257510729615, and its trace is below the prior's. *)
Theorem update_symmetric_trace_nonincreasing :
  (forall (x : vec2) (P : mat2) (H : vec2) (y r : Qc),
      symmetric P -> nonneg_definite P -> 0 < r ->
      exists K x' P',
        update (Arr2 [[r]]) (vector x) (matrix P) (row H) (Arr1 [y])
        = Ok (K, x', matrix P') /\
        T (matrix P') = matrix P' /\
        trace (matrix P') <= trace (matrix P)) /\
  (exists K x' p00 p11,
      Binary64.update Binary64.R_k Binary64.documented_x0
        Binary64.documented_P0 Binary64.H_0 Binary64.V_0
      = Ok (K, x',
            (Binary64.Arr2 [[p00; -0.6180257510729614];
                            [-0.6180257510729615; p11]])%float) /\
      PrimFloat.eqb (-0.6180257510729614) (-0.6180257510729615) = false /\
      PrimFloat.leb (p00 + p11) (9 + 0.2) = true).
Proof.
  split.
  - intros x P H y r Hsym Hpsd Hr.
    pose proof (positive_innovation P H r Hr (Hpsd H)) as HS.
    rewrite update_refines.
    destruct (Qc_eq_dec (spec_S P H r) 0) as [E | _];
      [exfalso; exact (Qclt_neq_0 _ HS E) |].
    do 3 eexists. split; [reflexivity |]. split.
    + apply T_matrix, spec_P_symmetric, Hsym.
    + rewrite !trace_matrix.
      eapply Qcle_by_difference; [apply spec_P_trace_drop, Hsym |].
      apply sum_squares_scaled_nonneg, Qcinv_pos, HS.
  - do 4 eexists. split; [vm_compute; reflexivity |].
    split; vm_compute; reflexivity.
Qed.

Lemma update_symmetric_trace_nonincreasing_witness :
  exists K x' P',
    update (Arr2 [[float 0.0225]]) (vector documented_x0)
      (matrix documented_P0) (row (observation (float 0.2)))
      (Arr1 [float 1.23])
    = Ok (K, x', matrix P') /\
    T (matrix P') = matrix P' /\
    trace (matrix P') <= trace (matrix documented_P0).
Proof.
  apply (proj1 update_symmetric_trace_nonincreasing);
    [reflexivity | exact documented_P0_nonneg_definite | reflexivity].
Defined.

(** ** The inversion in the gain *)

(** As C5 is worded, for every update with [r > 0]: the notebook's own [P_0]
    with the current [-1] and the variance [1] has [S = 0], and the update
    raises. *)
Lemma inversion_fails_on_indefinite_P :
  ~ (forall (x : vec2) (P : mat2) (current y r : Qc),
        0 < r ->
        0 < spec_S P (observation current) r /\
        is_ok (update (Arr2 [[r]]) (vector x) (matrix P)
                 (row (observation current)) (Arr1 [y])) = true).
Proof.
  intros Hall.
  destruct (Hall code_x0 code_P0 (float (-1)) (float 0) (float 1))
    as [_ Hok]; [reflexivity |].
  vm_compute in Hok. discriminate Hok.
Qed.

(** C5, amended.  For every update with [r > 0] whose covariance gives
    [H.P.Ht >= 0] (as every non-negative-definite [P] does), the innovation
    covariance is strictly positive, so the 1 by 1 inversion is defined and
    the update returns. *)
Theorem inversion_defined (x : vec2) (P : mat2) (H : vec2) (y r : Qc) :
  0 < r -> 0 <= row_col H (mat_col P H) ->
  innovation_covariance (Arr2 [[r]]) (matrix P) (row H)
  = Ok (Arr2 [[spec_S P H r]]) /\
  0 < spec_S P H r /\
  is_ok (update (Arr2 [[r]]) (vector x) (matrix P) (row H) (Arr1 [y]))
  = true.
Proof.
  intros Hr Hq.
  pose proof (positive_innovation P H r Hr Hq) as HS.
  split; [apply innovation_covariance_refines |]. split; [exact HS |].
  rewrite update_refines.
  destruct (Qc_eq_dec (spec_S P H r) 0) as [E | _];
    [exfalso; exact (Qclt_neq_0 _ HS E) | reflexivity].
Qed.

Lemma inversion_defined_witness :
  innovation_covariance (Arr2 [[float 0.0225]]) (matrix documented_P0)
    (row (observation (float 0.2)))
  = Ok (Arr2 [[spec_S documented_P0 (observation (float 0.2))
                 (float 0.0225)]]) /\
  0 < spec_S documented_P0 (observation (float 0.2)) (float 0.0225) /\
  is_ok (update (Arr2 [[float 0.0225]]) (vector documented_x0)
           (matrix documented_P0) (row (observation (float 0.2)))
           (Arr1 [float 1.23])) = true.
Proof.
  apply (inversion_defined documented_x0 documented_P0
           (observation (float 0.2)) (float 1.23) (float 0.0225));
    [reflexivity | apply documented_P0_nonneg_definite].
Defined.

(** ** The same measurement twice *)














(** ** What the loop depends on *)

Lemma replace_nth_length {A : Type} (k : nat) (a : A) (l : list A) :
  length (replace_nth k a l) = length l.
Proof.
  revert k. induction l as [| b l IH]; intros [| k]; cbn; auto.
Qed.

Lemma set_slice_same_length (hist hist' : list ndarray) (k : nat) (P : ndarray) :
  length hist = length hist' ->
  match set_slice hist k P, set_slice hist' k P with
  | Ok h, Ok h' => length h = length h'
  | Raise e, Raise e' => e = e'
  | _, _ => False
  end.
Proof.
  intros E. unfold set_slice. rewrite E.
  destruct (k <? length hist')%nat; [| reflexivity].
  destruct (broadcast_to2 2 2 P) as [rows | e]; cbn; [| reflexivity].
  rewrite !replace_nth_length. exact E.
Qed.

Lemma setitem_same_shape (a a' : ndarray) (k : nat) (v : ndarray) :
  shape a = shape a' ->
  match setitem a (S k) v, setitem a' (S k) v with
  | Ok b, Ok b' => shape b = shape b'
  | Raise e, Raise e' => e = e'
  | _, _ => False
  end.
Proof.
  intros E.
  destruct a as [s | l | rows], a' as [s' | l' | rows'];
    try discriminate E; try reflexivity.
  cbn [shape] in E. injection E as En Ec. unfold setitem. rewrite En, Ec.
  destruct (S k <? nrows rows')%nat; [| reflexivity].
  destruct (broadcast_to1 (ncols rows') v) as [r | e]; cbn [bind];
    [| reflexivity].
  cbn [shape]. unfold nrows in *. rewrite !replace_nth_length, En.
  destruct rows, rows'; try discriminate En; cbn in *; congruence.
Qed.

Lemma iteration_same_outcome (I V I' V' R : ndarray) (k : nat) (st st' : env) :
  getitem I k = getitem I' k -> getitem V k = getitem V' k ->
  same_visible st st' ->
  same_outcome (iteration I V R k st) (iteration I' V' R k st').
Proof.
  intros HI HV (Hx & HP & Hxh & HPh).
  unfold iteration. rewrite HI, HV, Hx, HP.
  destruct (getitem I' k) as [Ik | e]; [| reflexivity]. cbn [bind].
  destruct (array_row2 Ik (float 1.0)) as [H | e]; [| reflexivity]. cbn [bind].
  destruct (gain R (RLS.P_k st') H) as [K | e]; [| reflexivity]. cbn [bind].
  destruct (getitem V' k) as [Vk | e]; [| reflexivity]. cbn [bind].
  destruct (estimate (RLS.x_k st') K H Vk) as [x | e]; [| reflexivity].
  cbn [bind].
  destruct (covariance (RLS.P_k st') K H) as [P | e]; [| reflexivity].
  cbn [bind].
  pose proof (set_slice_same_length _ _ (k + 1) P HPh) as Hs.
  destruct (set_slice (RLS.P_hist st) (k + 1) P) as [h | e],
    (set_slice (RLS.P_hist st') (k + 1) P) as [h' | e'];
    try contradiction; [| exact Hs]. cbn [bind].
  rewrite Nat.add_1_r.
  pose proof (setitem_same_shape _ _ k x Hxh) as Ht.
  destruct (setitem (RLS.x_hist st) (S k) x) as [b | e],
    (setitem (RLS.x_hist st') (S k) x) as [b' | e'];
    try contradiction; [| exact Ht].
  cbn. repeat split; assumption.
Qed.

(** C7.  The loop is a function of the estimate, the covariance, the
    variance and the measurements it visits, and of nothing else: two runs
    over tables that agree at the visited indices, from states that agree on
    [x_k] and [P_k] (and on the shapes of the histories, whatever their
    contents and the last [H_k] and [K_k]), end the same way, with the
    same [x_k] and [P_k] or with the same exception. *)
Theorem loop_depends_on_inputs_only
    (I V I' V' R : ndarray) (ks : list nat) (st st' : env) :
  (forall k, In k ks ->
     getitem I k = getitem I' k /\ getitem V k = getitem V' k) ->
  same_visible st st' ->
  same_outcome (for_each I V R ks st) (for_each I' V' R ks st').
Proof.
  revert st st'. induction ks as [| k ks IH]; intros st st' Hdata Hst.
  - exact Hst.
  - cbn [for_each].
    destruct (Hdata k (or_introl eq_refl)) as [HI HV].
    pose proof (iteration_same_outcome I V I' V' R k st st' HI HV Hst) as Hit.
    destruct (iteration I V R k st) as [s | e],
      (iteration I' V' R k st') as [s' | e'];
      try contradiction; [| exact Hit].
    cbn [bind]. apply IH; [| exact Hit].
    intros j Hj. apply Hdata. right. exact Hj.
Qed.

Lemma loop_depends_on_inputs_only_witness :
  same_outcome (for_each (ravel RLS.I) RLS.V RLS.R_k (seq 0 5) blank)
    (for_each (ravel RLS.I) RLS.V RLS.R_k (seq 0 5) scribbled).
Proof.
  apply loop_depends_on_inputs_only.
  - intros k _. split; reflexivity.
  - repeat split; reflexivity.
Defined.

(** ** The run of the notebook *)

Lemma Qc_eq_bool_refl (p : Qc) : Qc_eq_bool p p = true.
Proof. unfold Qc_eq_bool. destruct (Qc_eq_dec p p); congruence. Qed.

Lemma list_eqb_eq (u v : list Qc) : list_eqb u v = true <-> u = v.
Proof.
  revert v. induction u as [| a u IH]; intros [| b v]; cbn;
    try (split; [discriminate | discriminate]); [tauto |].
  rewrite andb_true_iff, IH. split.
  - intros [E1 E2]. apply Qc_eq_bool_correct in E1. congruence.
  - intros E. injection E as -> ->. split; [apply Qc_eq_bool_refl | reflexivity].
Qed.

Lemma rows_eqb_eq (A B : list (list Qc)) : rows_eqb A B = true <-> A = B.
Proof.
  revert B. induction A as [| r A IH]; intros [| r' B]; cbn;
    try (split; [discriminate | discriminate]); [tauto |].
  rewrite andb_true_iff, IH, list_eqb_eq. split.
  - intros [E1 E2]. congruence.
  - intros E. injection E as -> ->. split; reflexivity.
Qed.

Lemma array_eqb_eq (a b : ndarray) : array_eqb a b = true <-> a = b.
Proof.
  destruct a as [s | u | A], b as [t | v | B]; cbn;
    try (split; [discriminate | discriminate]).
  - split.
    + intros E. apply Qc_eq_bool_correct in E. congruence.
    + intros E. injection E as ->. apply Qc_eq_bool_refl.
  - rewrite list_eqb_eq. split; congruence.
  - rewrite rows_eqb_eq. split; congruence.
Qed.

Lemma array_eqb_neq (a b : ndarray) : array_eqb a b = false -> a <> b.
Proof.
  intros E Hab. apply array_eqb_eq in Hab. congruence.
Qed.

(** The five updates from the documented prior, on the rows the loop means
    to build. *)
Lemma documented_prior_lands_near_batch :
  exists st,
    for_each (ravel RLS.I) RLS.V RLS.R_k (seq 0 5)
      {| x_k := vector documented_x0; P_k := matrix documented_P0;
         H_k := None; K_k := None;
         x_hist := zeros 6 2; P_hist := repeat (zeros 2 2) 6 |} = Ok st /\
    exists R b, st.(x_k) = Arr1 [R; b] /\
      float 4.97 - float 0.01 < R /\ R < float 4.97 + float 0.01 /\
      float 0.074 - float 0.01 < b /\ b < float 0.074 + float 0.01.
Proof.
  eexists. split; [vm_compute; reflexivity |].
  do 2 eexists. split; [reflexivity |].
  repeat split; vm_compute; reflexivity.
Qed.

(** C1.  The recursive cell produces no estimate: its loop raises
    [ValueError] in the first iteration, where it builds [H_k].  On the rows
    it means to build (the same loop on [I.ravel()], where [I[k]] is a
    number), the five updates from the cell's initial values end with
    [R = 101054/43645] (about 2.32) and [b = 50527/43645] (about 1.16); the
    batch cell gives [R = 4.97] and [b = 0.074].  The two differ by more
    than 2.65 in the resistance and by more than 1.08 in the offset. *)
Theorem recursive_run_far_from_batch :
  recursive_loop = Raise ValueError /\
  (exists st0 st,
      initial = Ok st0 /\
      for_each (ravel RLS.I) RLS.V RLS.R_k (seq 0 num_meas) st0 = Ok st /\
      st.(x_k) = Arr1 [float (101054 # 43645); float (50527 # 43645)]) /\
  x_ls = Ok (Arr2 [[float 4.97]; [float 0.074]]) /\
  float 2.65 < float 4.97 - float (101054 # 43645) /\
  float 1.08 < float (50527 # 43645) - float 0.074.
Proof.
  split; [reflexivity |].
  split.
  - do 2 eexists. split; [reflexivity |].
    split; [vm_compute; reflexivity |].
    apply array_eqb_eq; vm_compute; reflexivity.
  - split.
    + destruct x_ls as [a | e] eqn:E; vm_compute in E; [| discriminate E].
      injection E as <-. f_equal. apply array_eqb_eq. vm_compute. reflexivity.
    + split; vm_compute; reflexivity.
Qed.

(** C4.  The initial covariance of the notebook has the off-diagonal
    elements 4 and 1: it is not symmetric, and its quadratic form is
    negative at [(1, -1)].  It is the covariance the cell holds in [P_k] and
    in [P_hist[0]] when the loop starts, and the only one it ever assigns,
    the loop raising in its first iteration.  On the rows the loop means to
    build (the same loop on [I.ravel()]), [P_hist] ends with six
    covariances, the first being [P_0], and none of them is symmetric. *)
Theorem covariances_of_the_run_not_symmetric :
  getitem2 P_0 0 1 = Ok (float 4) /\
  getitem2 P_0 1 0 = Ok (float 1) /\
  P_0 = matrix code_P0 /\
  ~ nonneg_definite code_P0 /\
  (exists st0,
      initial = Ok st0 /\ st0.(P_k) = P_0 /\
      nth_error st0.(P_hist) 0 = Some P_0) /\
  recursive_loop = Raise ValueError /\
  exists st0 st,
    initial = Ok st0 /\
    for_each (ravel RLS.I) RLS.V RLS.R_k (seq 0 num_meas) st0 = Ok st /\
    length st.(P_hist) = 6%nat /\
    nth_error st.(P_hist) 0 = Some P_0 /\
    Forall (fun P => T P <> P) st.(P_hist).
Proof.
  split; [reflexivity |]. split; [reflexivity |]. split; [reflexivity |].
  split.
  - intros Hn. specialize (Hn {| c0 := float 1; c1 := float (-1) |}).
    vm_compute in Hn. apply Hn. reflexivity.
  - split; [eexists; split; [reflexivity | split; reflexivity] |].
    split; [reflexivity |].
    do 2 eexists. split; [reflexivity |].
    split; [vm_compute; reflexivity |].
    split; [reflexivity |]. split; [reflexivity |].
    repeat constructor; apply array_eqb_neq; vm_compute; reflexivity.
Qed.

(** C8.  The loop reads the table [I[k]], [V[k]] for [k = 0 .. 4] in that
    order, each entry an array of shape (1,).  The recursive cell prints
    nothing: its loop raises [ValueError] in the first iteration, before
    any [print].  On the rows the loop means to build (the same loop on
    [I.ravel()]) the loop leaves [x_k] with shape (2,), so the three [print]
    calls print the header line and then [print(x_k[0, 0])] raises
    [IndexError]: the final parameters are not printed either way.  The
    batch cell, which indexes the 2 by 1 array [x_ls] the same way, prints
    the header and both numbers.  (The saved table of the vehicle notebook
    is the subject of [t_data_values] and [xdata_rows] below.) *)
Theorem recursive_cell_prints_no_parameters :
  map (fun k => (getitem RLS.I k, getitem RLS.V k)) (seq 0 num_meas)
  = map (fun p => (Ok (Arr1 [float (fst p)]), Ok (Arr1 [float (snd p)])))
      [(0.2, 1.23); (0.3, 1.38); (0.4, 2.06); (0.5, 2.47); (0.6, 3.17)]%Q /\
  recursive_cell = ([], Raise ValueError) /\
  (exists st0 st,
      initial = Ok st0 /\
      for_each (ravel RLS.I) RLS.V RLS.R_k (seq 0 num_meas) st0 = Ok st /\
      shape st.(x_k) = [2%nat] /\
      print_parameters st.(x_k) = ([Text header], Raise IndexError)) /\
  length (fst batch_cell) = 3%nat /\
  snd batch_cell = Ok tt.
Proof.
  split; [reflexivity |].
  split; [reflexivity |].
  split.
  - do 2 eexists. split; [reflexivity |].
    split; [vm_compute; reflexivity |]. split; reflexivity.
  - split; vm_compute; reflexivity.
Qed.

(** ** The vehicle model *)

Import Longitudinal.

Section VehicleProperties.

Variable sin : Qc -> Qc.

Lemma step_parameters (self : Vehicle) (throttle alpha : Qc) :
  parameters (fst (step sin self throttle alpha)) = parameters self.
Proof.
  unfold step.
  repeat match goal with
    | |- context [match divide ?p ?q with _ => _ end] => destruct (divide p q)
    end; reflexivity.
Qed.

Lemma reset_parameters (self : Vehicle) : parameters (reset self) = parameters self.
Proof. reflexivity. Qed.

Lemma reachable_parameters (self : Vehicle) :
  reachable sin self -> parameters self = parameters init.
Proof.
  induction 1 as [| self throttle alpha _ IH | self _ IH].
  - reflexivity.
  - rewrite step_parameters. exact IH.
  - rewrite reset_parameters. exact IH.
Qed.

Lemma reset_of_constructor_parameters (self : Vehicle) :
  parameters self = parameters init -> reset self = init.
Proof.
  destruct self. unfold parameters. cbn. intros E.
  injection E as -> -> -> -> -> -> -> -> -> -> -> -> ->. reflexivity.
Qed.

End VehicleProperties.

(** C10.  On every object reachable from the constructor by [step] and
    [reset], [reset] restores the five state variables to the constructor's
    values [x = 0], [v = 5], [a = 0], [w_e = 100], [w_e_dot = 0] (the object
    is then the constructor's object again), and neither [reset] nor [step],
    however it ends, changes a parameter attribute. *)
Theorem reset_restores_state_and_parameters_are_kept
    (sin : Qc -> Qc) (self : Vehicle) :
  reachable sin self ->
  state (reset self) = [float 0; float 5; float 0; float 100; float 0] /\
  reset self = init /\
  parameters (reset self) = parameters self /\
  (forall throttle alpha,
      parameters (fst (step sin self throttle alpha)) = parameters self).
Proof.
  intros Hr. split; [reflexivity |]. split.
  - apply reset_of_constructor_parameters, (reachable_parameters sin), Hr.
  - split; [reflexivity |]. intros throttle alpha. apply step_parameters.
Qed.

Lemma reset_restores_state_and_parameters_are_kept_witness :
  let moved := fst (step level_sin init (float 0.2) (float 0)) in
  state (reset moved) = [float 0; float 5; float 0; float 100; float 0] /\
  reset moved = init /\
  parameters (reset moved) = parameters moved /\
  (forall throttle alpha,
      parameters (fst (step level_sin moved throttle alpha))
      = parameters moved).
Proof.
  apply (reset_restores_state_and_parameters_are_kept level_sin).
  apply reach_step, reach_init.
Defined.

(** ** When [step] raises

    The statements of this part are about [Longitudinal64]: [step], [init],
    [reset] and the attributes are the ones on binary64. *)

Section StepOnBinary64.

Import Longitudinal64.

Variable sin : PrimFloat.float -> PrimFloat.float.
Variable pow : PrimFloat.float -> PrimFloat.float -> PrimFloat.float.

Lemma truediv_nonzero (p q : number) :
  PrimFloat.eqb q.(val) 0 = false ->
  truediv p q
  = Ok {| val := p.(val) / q.(val); numpy := p.(numpy) || q.(numpy) |}.
Proof. intros E. unfold truediv. rewrite E. reflexivity. Qed.

Lemma math_sin_raises (p : number) (e : exn) :
  math_sin sin p = Raise e -> e = ValueError.
Proof.
  unfold math_sin. cbv zeta.
  match goal with
  | |- context [if ?b then _ else _] => destruct b
  end; [congruence | discriminate].
Qed.

Lemma power_2_raises (p : number) (e : exn) :
  power_2 pow p = Raise e -> e = OverflowError /\ p.(numpy) = false.
Proof.
  unfold power_2, float_pow_2. destruct (numpy p); [discriminate |].
  repeat match goal with
    | |- context [if ?b then _ else _] => destruct b
    end; cbn [bind]; try discriminate.
  intros E. split; congruence.
Qed.

Lemma reset_of_constructor_parameters64 (self : Vehicle) :
  parameters self = parameters init -> reset self = init.
Proof.
  destruct self. unfold parameters. cbn. intros E.
  injection E as -> -> -> -> -> -> -> -> -> -> -> -> ->. reflexivity.
Qed.

(** On an object with the constructor's parameters, how [step] ends: the
    division by the integrated velocity raises when that velocity is zero
    and both operands are Python numbers; otherwise the call ends as the
    sine and the two squares do, the divisions by the mass and by the
    inertia being defined. *)
Lemma step_outcome64 (self : Vehicle) (throttle alpha : number) :
  parameters self = parameters init ->
  snd (step sin pow self throttle alpha)
  = if PrimFloat.eqb (integrated_v self).(val) 0
       && negb ((integrated_w_e self).(numpy) || (integrated_v self).(numpy))
    then Raise ZeroDivisionError
    else _ <- math_sin sin alpha ;;
         _ <- power_2 pow (integrated_v self) ;;
         _ <- power_2 pow (integrated_w_e self) ;;
         Ok tt.
Proof.
  intros E. destruct self. unfold parameters in E. cbn in E.
  injection E as -> -> -> -> -> -> -> -> -> -> -> -> ->.
  unfold step, integrated_v, integrated_w_e.
  cbn [set_x set_v set_w_e set_a set_w_e_dot Longitudinal64.v Longitudinal64.a
       Longitudinal64.w_e Longitudinal64.w_e_dot Longitudinal64.x
       sample_time GR r_e m J_e c F_max a_0 a_1 a_2 c_a c_r1 g].
  unfold truediv at 1.
  cbn [val numpy mul add py orb].
  rewrite !orb_false_r.
  match goal with
  | |- context [if ?b then _ else _] => destruct b; [reflexivity |]
  end.
  destruct (math_sin sin alpha) as [sa | e]; [| reflexivity]. cbn [bind].
  match goal with
  | |- context [power_2 pow ?p] =>
      destruct (power_2 pow p) as [v2 | e]; [| reflexivity]
  end. cbn [bind].
  match goal with
  | |- context [power_2 pow ?p] =>
      destruct (power_2 pow p) as [w2 | e]; [| reflexivity]
  end. cbn [bind].
  rewrite truediv_nonzero by reflexivity.
  rewrite truediv_nonzero by reflexivity.
  reflexivity.
Qed.

(** X11.  On an object with the constructor's parameters, [step] integrates
    position, velocity and engine speed with the derivatives the object held
    before the call, whether it then returns or raises, and changes no
    parameter; when it raises, whatever the exception, it leaves the object
    half-updated: [x], [v] and [w_e] are new, [a] and [w_e_dot] are the old
    ones. *)
Theorem step_integrates_then_may_fail (self : Vehicle)
    (throttle alpha : number) :
  parameters self = parameters init ->
  let next := fst (step sin pow self throttle alpha) in
  next.(x) = add self.(x) (mul self.(v) self.(sample_time)) /\
  next.(v) = integrated_v self /\
  next.(w_e) = integrated_w_e self /\
  parameters next = parameters self /\
  (forall e, snd (step sin pow self throttle alpha) = Raise e ->
     next.(a) = self.(a) /\ next.(w_e_dot) = self.(w_e_dot)).
Proof.
  intros E. destruct self. unfold parameters in E. cbn in E.
  injection E as -> -> -> -> -> -> -> -> -> -> -> -> ->.
  cbv zeta. unfold step, integrated_v, integrated_w_e.
  cbn [set_x set_v set_w_e set_a set_w_e_dot Longitudinal64.v Longitudinal64.a
       Longitudinal64.w_e Longitudinal64.w_e_dot Longitudinal64.x
       sample_time GR r_e m J_e c F_max a_0 a_1 a_2 c_a c_r1 g].
  match goal with
  | |- context [truediv ?p ?q] =>
      destruct (truediv p q) as [ratio | e0];
        [| repeat split; reflexivity]
  end.
  destruct (math_sin sin alpha) as [sa | e0]; [| repeat split; reflexivity].
  match goal with
  | |- context [power_2 pow ?p] =>
      destruct (power_2 pow p) as [v2 | e0]; [| repeat split; reflexivity]
  end.
  match goal with
  | |- context [power_2 pow ?p] =>
      destruct (power_2 pow p) as [w2 | e0]; [| repeat split; reflexivity]
  end.
  rewrite truediv_nonzero by reflexivity.
  rewrite truediv_nonzero by reflexivity.
  cbn. repeat split; try reflexivity; discriminate.
Qed.

End StepOnBinary64.

Lemma step_integrates_then_may_fail_witness :
  let braking :=
    Longitudinal64.set_a (Longitudinal64.py (-500)) Longitudinal64.init in
  let next :=
    fst (Longitudinal64.step Longitudinal64.level_sin
           Longitudinal64.product_pow braking
           (Longitudinal64.py 0.2) (Longitudinal64.py 0)) in
  Longitudinal64.x next
  = Longitudinal64.add (Longitudinal64.x braking)
      (Longitudinal64.mul (Longitudinal64.v braking)
         (Longitudinal64.sample_time braking)) /\
  Longitudinal64.v next = Longitudinal64.integrated_v braking /\
  Longitudinal64.w_e next = Longitudinal64.integrated_w_e braking /\
  Longitudinal64.parameters next = Longitudinal64.parameters braking /\
  (forall e,
      snd (Longitudinal64.step Longitudinal64.level_sin
             Longitudinal64.product_pow braking
             (Longitudinal64.py 0.2) (Longitudinal64.py 0)) = Raise e ->
      Longitudinal64.a next = Longitudinal64.a braking /\
      Longitudinal64.w_e_dot next = Longitudinal64.w_e_dot braking).
Proof.
  apply (step_integrates_then_may_fail Longitudinal64.level_sin
           Longitudinal64.product_pow
           (Longitudinal64.set_a (Longitudinal64.py (-500))
              Longitudinal64.init)).
  reflexivity.
Defined.

(** As C9 is worded, with [v] the velocity of the state [step] is called
    on.  The constructor's object with [a = -500] has [v = 5] and [step]
    raises on it, the integrated velocity being [5 - 500 * 0.01 = 0.0]; the
    constructor's object with [v = 0] and [a = 1] has a zero velocity and
    [step] returns on it; and with the NumPy scalar [np.float64(0)] for [v]
    and [a = 0] the velocity stays zero and [step] returns, the division
    giving [inf]. *)
Lemma step_raises_at_nonzero_velocity :
  let braking :=
    Longitudinal64.set_a (Longitudinal64.py (-500)) Longitudinal64.init in
  let standing :=
    Longitudinal64.set_a (Longitudinal64.py 1)
      (Longitudinal64.set_v (Longitudinal64.py 0) Longitudinal64.init) in
  let halted :=
    Longitudinal64.set_v (Longitudinal64.np 0) Longitudinal64.init in
  Longitudinal64.parameters braking
  = Longitudinal64.parameters Longitudinal64.init /\
  PrimFloat.eqb (Longitudinal64.val (Longitudinal64.v braking)) 0 = false /\
  (forall sin pow throttle alpha,
      snd (Longitudinal64.step sin pow braking throttle alpha)
      = Raise ZeroDivisionError) /\
  Longitudinal64.parameters standing
  = Longitudinal64.parameters Longitudinal64.init /\
  PrimFloat.eqb (Longitudinal64.val (Longitudinal64.v standing)) 0 = true /\
  snd (Longitudinal64.step Longitudinal64.level_sin
         Longitudinal64.product_pow standing
         (Longitudinal64.py 0.2) (Longitudinal64.py 0)) = Ok tt /\
  Longitudinal64.parameters halted
  = Longitudinal64.parameters Longitudinal64.init /\
  PrimFloat.eqb
    (Longitudinal64.val (Longitudinal64.integrated_v halted)) 0 = true /\
  snd (Longitudinal64.step Longitudinal64.level_sin
         Longitudinal64.product_pow halted
         (Longitudinal64.py 0.2) (Longitudinal64.py 0)) = Ok tt.
Proof.
  cbv zeta.
  split; [reflexivity |]. split; [reflexivity |].
  split.
  { intros sin pow throttle alpha.
    rewrite step_outcome64 by reflexivity. reflexivity. }
  split; [reflexivity |]. split; [reflexivity |].
  split; [vm_compute; reflexivity |].
  split; [reflexivity |]. split; [reflexivity |].
  vm_compute. reflexivity.
Qed.

(** C9, amended.  On an object with the constructor's parameters, [step]
    raises [ZeroDivisionError] exactly when the velocity it has just
    integrated, [v + a * sample_time] as computed in binary64, is zero and
    the numbers it divides are Python numbers; when one of them is a NumPy
    scalar the division gives [inf] or [nan] and [step] goes on.  When it
    does not raise there, [step] ends as [math.sin(alpha)] and the squares
    of the integrated velocity and engine speed do: with [ValueError] from
    the sine, with [OverflowError] from a square of Python numbers, and
    otherwise it returns.  The constructor and [reset] establish [v = 5] and
    [a = 0], so the step that follows them divides by 5.0 and does not raise
    [ZeroDivisionError]. *)
Theorem step_raises_or_returns
    (sin : PrimFloat.float -> PrimFloat.float)
    (pow : PrimFloat.float -> PrimFloat.float -> PrimFloat.float) :
  (forall self throttle alpha,
      Longitudinal64.parameters self
      = Longitudinal64.parameters Longitudinal64.init ->
      let v' := Longitudinal64.integrated_v self in
      let w' := Longitudinal64.integrated_w_e self in
      (snd (Longitudinal64.step sin pow self throttle alpha)
       = Raise ZeroDivisionError <->
       PrimFloat.eqb (Longitudinal64.val v') 0 = true /\
       Longitudinal64.numpy v' = false /\
       Longitudinal64.numpy w' = false) /\
      (snd (Longitudinal64.step sin pow self throttle alpha)
       <> Raise ZeroDivisionError ->
       snd (Longitudinal64.step sin pow self throttle alpha)
       = (_ <- Longitudinal64.math_sin sin alpha ;;
          _ <- Longitudinal64.power_2 pow v' ;;
          _ <- Longitudinal64.power_2 pow w' ;;
          Ok tt))) /\
  (forall self throttle alpha,
      Longitudinal64.parameters self
      = Longitudinal64.parameters Longitudinal64.init ->
      Longitudinal64.integrated_v (Longitudinal64.reset self)
      = Longitudinal64.py 5 /\
      snd (Longitudinal64.step sin pow (Longitudinal64.reset self)
             throttle alpha)
      = (_ <- Longitudinal64.math_sin sin alpha ;;
         _ <- Longitudinal64.power_2 pow (Longitudinal64.py 5) ;;
         _ <- Longitudinal64.power_2 pow (Longitudinal64.py 100) ;;
         Ok tt) /\
      snd (Longitudinal64.step sin pow (Longitudinal64.reset self)
             throttle alpha)
      <> Raise ZeroDivisionError).
Proof.
  assert (Hno : forall alpha p q,
             (_ <- Longitudinal64.math_sin sin alpha ;;
              _ <- Longitudinal64.power_2 pow p ;;
              _ <- Longitudinal64.power_2 pow q ;;
              Ok tt) <> Raise ZeroDivisionError).
  { intros alpha p q.
    destruct (Longitudinal64.math_sin sin alpha) as [sa | e] eqn:Es.
    - cbn [bind].
      destruct (Longitudinal64.power_2 pow p) as [p2 | e] eqn:Ep.
      + cbn [bind].
        destruct (Longitudinal64.power_2 pow q) as [q2 | e] eqn:Eq.
        * discriminate.
        * cbn [bind]. apply power_2_raises in Eq. destruct Eq as [-> _].
          discriminate.
      + cbn [bind]. apply power_2_raises in Ep. destruct Ep as [-> _].
        discriminate.
    - cbn [bind]. apply math_sin_raises in Es. subst e. discriminate. }
  split.
  - intros self throttle alpha E. cbv zeta.
    rewrite (step_outcome64 sin pow self throttle alpha E).
    destruct (PrimFloat.eqb
                (Longitudinal64.val (Longitudinal64.integrated_v self)) 0)
      eqn:Hz;
      destruct (Longitudinal64.numpy (Longitudinal64.integrated_v self))
        eqn:Hv;
      destruct (Longitudinal64.numpy (Longitudinal64.integrated_w_e self))
        eqn:Hw;
      cbn [andb orb negb];
      (split; [split |]);
      try (intros H; exfalso; exact (Hno _ _ _ H));
      try (intros (H1 & H2 & H3); discriminate);
      try (intros _; repeat split; reflexivity);
      try (intros H; exfalso; apply H; reflexivity);
      try (intros _; reflexivity).
  - intros self throttle alpha E.
    rewrite (reset_of_constructor_parameters64 self E).
    split; [reflexivity |].
    rewrite (step_outcome64 sin pow Longitudinal64.init throttle alpha eq_refl).
    split; [reflexivity |].
    apply Hno.
Qed.

Lemma step_raises_or_returns_witness :
  snd (Longitudinal64.step Longitudinal64.level_sin
         Longitudinal64.product_pow
         (Longitudinal64.reset Longitudinal64.init)
         (Longitudinal64.py 0.2) (Longitudinal64.py 0)) = Ok tt /\
  (snd (Longitudinal64.step Longitudinal64.level_sin
          Longitudinal64.product_pow
          (Longitudinal64.set_a (Longitudinal64.py (-500))
             Longitudinal64.init)
          (Longitudinal64.py 0.2) (Longitudinal64.py 0))
   = Raise ZeroDivisionError <->
   PrimFloat.eqb
     (Longitudinal64.val
        (Longitudinal64.integrated_v
           (Longitudinal64.set_a (Longitudinal64.py (-500))
              Longitudinal64.init))) 0 = true /\
   Longitudinal64.numpy
     (Longitudinal64.integrated_v
        (Longitudinal64.set_a (Longitudinal64.py (-500))
           Longitudinal64.init)) = false /\
   Longitudinal64.numpy
     (Longitudinal64.integrated_w_e
        (Longitudinal64.set_a (Longitudinal64.py (-500))
           Longitudinal64.init)) = false).
Proof.
  split.
  - destruct (proj2 (step_raises_or_returns Longitudinal64.level_sin
                       Longitudinal64.product_pow)
                Longitudinal64.init (Longitudinal64.py 0.2)
                (Longitudinal64.py 0) eq_refl) as (_ & Hout & _).
    rewrite Hout. vm_compute. reflexivity.
  - apply (proj1 (step_raises_or_returns Longitudinal64.level_sin
                    Longitudinal64.product_pow)
             (Longitudinal64.set_a (Longitudinal64.py (-500))
                Longitudinal64.init)
             (Longitudinal64.py 0.2) (Longitudinal64.py 0) eq_refl).
Defined.

(** ** The saved table of the ramp simulation *)

Lemma firstn_replace_nth {A : Type} (k : nat) (a : A) (l : list A) :
  (k < length l)%nat ->
  firstn (S k) (replace_nth k a l) = firstn k l ++ [a].
Proof.
  revert k. induction l as [| b l IH]; intros [| k] Hk; cbn in *; try lia.
  - reflexivity.
  - f_equal. apply IH. lia.
Qed.

Lemma skipn_replace_nth {A : Type} (k n : nat) (a : A) (l : list A) :
  (k < n)%nat -> skipn n (replace_nth k a l) = skipn n l.
Proof.
  revert k n. induction l as [| b l IH]; intros [| k] [| n] Hk; cbn;
    try lia; try reflexivity.
  apply IH. lia.
Qed.

Section RampProperties.

Variables (sin : Qc -> Qc) (atan2 : Qc -> Qc -> Qc).

Lemma ramp_iteration_records (i : nat) (model model' : Vehicle)
    (rec rec' : recording) :
  ramp_iteration sin atan2 i (model, rec) = Ok (model', rec') ->
  (i < length rec.(x_data))%nat /\
  rec'.(x_data) = replace_nth i model.(x) rec.(x_data) /\
  exists throttle alpha, step sin model throttle alpha = (model', Ok tt).
Proof.
  unfold ramp_iteration, store at 1.
  destruct (i <? length (x_data rec))%nat eqn:Hi; [| discriminate].
  apply Nat.ltb_lt in Hi. cbn [bind].
  destruct (store i (v model) (v_data rec)) as [vs | e]; [| discriminate].
  cbn [bind].
  match goal with
  | |- context [bind ?c _] => destruct c as [alphas | e]; [| discriminate]
  end.
  cbn [bind].
  destruct (load i (throttle_data)) as [throttle | e]; [| discriminate].
  cbn [bind].
  destruct (load i alphas) as [alpha | e]; [| discriminate]. cbn [bind].
  destruct (step sin model throttle alpha) as [next [[] | e]] eqn:Hstep;
    [| discriminate].
  intros E. injection E as <- <-. cbn [x_data].
  split; [exact Hi |]. split; [reflexivity |].
  exists throttle, alpha. exact Hstep.
Qed.

Lemma ramp_loop_records (j k : nat) (model last : Vehicle)
    (rec rec' : recording) :
  ramp_loop sin atan2 (seq k j) (model, rec) = Ok (last, rec') ->
  exists models,
    length models = j /\
    steps_from sin model models last /\
    rec'.(x_data)
    = firstn k rec.(x_data) ++ map x models ++ skipn (k + j) rec.(x_data).
Proof.
  revert k model rec. induction j as [| j IH]; intros k model rec; cbn [seq ramp_loop].
  - intros E. injection E as <- <-. exists []. split; [reflexivity |].
    split; [constructor |]. cbn [map app]. rewrite Nat.add_0_r.
    symmetry. apply firstn_skipn.
  - destruct (ramp_iteration sin atan2 k (model, rec)) as [[next rec1] | e] eqn:Hit;
      [| discriminate]. cbn [bind]. intros Hloop.
    destruct (ramp_iteration_records _ _ _ _ _ Hit)
      as (Hk & Hx & throttle & alpha & Hstep).
    destruct (IH _ _ _ Hloop) as (models & Hlen & Hsteps & Hdata).
    exists (model :: models). split; [cbn; lia |].
    split; [econstructor; eassumption |].
    rewrite Hdata, Hx, firstn_replace_nth by exact Hk.
    rewrite skipn_replace_nth by lia.
    rewrite <- app_assoc, Nat.add_succ_r. reflexivity.
Qed.

Lemma t_len_value : t_len = 2000%nat.
Proof. vm_compute. reflexivity. Qed.

(** The times of the table: [t_i = i * 0.01] for the 2000 rows. *)
Lemma t_data_values (i : nat) :
  (i < 2000)%nat -> nth_error t_data i = Some (of_nat i * float 0.01).
Proof.
  intros Hi. unfold t_data, arange.
  replace (Z.to_nat (Qceiling ((time_end - float 0) / float 0.01)))
    with 2000%nat by (vm_compute; reflexivity).
  erewrite map_nth_error.
  - f_equal. rewrite float_0. apply Qcplus_0_l.
  - rewrite nth_error_nth' with (d := 0%nat) by (rewrite length_seq; exact Hi).
    rewrite seq_nth by exact Hi. reflexivity.
Qed.

(** When the ramp cell completes, the saved table has 2000 rows
    [(t_i, x_i)]: [t_i] is the [i]-th time of [t_data] and [x_i] the position
    of the model before its [i]-th step, in a run of 2000 successful steps
    from the reset object. *)
Lemma xdata_rows (model : Vehicle) (rows : list (Qc * Qc)) :
  xdata sin atan2 model = Ok rows ->
  exists models last,
    steps_from sin (reset model) models last /\
    length models = 2000%nat /\
    rows = combine t_data (map x models) /\
    length rows = 2000%nat.
Proof.
  unfold xdata, ramp_cell.
  destruct (ramp_loop sin atan2 (seq 0 t_len) _) as [[last rec'] | e] eqn:Hloop;
    [| discriminate].
  cbn [bind snd]. intros E.
  assert (Hrows : rows = combine t_data (x_data rec')) by congruence.
  clear E.
  destruct (ramp_loop_records _ _ _ _ _ _ Hloop)
    as (models & Hlen & Hsteps & Hdata).
  cbn [x_data firstn app] in Hdata.
  rewrite skipn_all2 in Hdata by (rewrite repeat_length; lia).
  rewrite app_nil_r in Hdata.
  exists models, last. rewrite <- t_len_value.
  split; [exact Hsteps |]. split; [exact Hlen |].
  rewrite Hrows, Hdata. split; [reflexivity |].
  rewrite length_combine, length_map, Hlen. unfold t_len. lia.
Qed.

End RampProperties.

(** * Further properties of the code *)

(** ** The loop *)

Import Run.



Lemma shape_replace_nth_succ (k : nat) (r : list Qc) (rows : list (list Qc)) :
  shape (Arr2 (replace_nth (S k) r rows)) = shape (Arr2 rows).
Proof.
  cbn [shape]. unfold nrows. rewrite replace_nth_length.
  destruct rows; reflexivity.
Qed.











(** ** The vehicle: reset and failure *)

(** X10.  [reset] forgets whatever [step] did: resetting after a step,
    however it ended, gives the same object as resetting before it; and
    resetting twice is resetting once. *)
Theorem reset_absorbs_step (sin : Qc -> Qc) (self : Vehicle)
    (throttle alpha : Qc) :
  reset (fst (step sin self throttle alpha)) = reset self /\
  reset (reset self) = reset self.
Proof.
  split; [| reflexivity]. unfold step.
  repeat match goal with
    | |- context [match divide ?p ?q with _ => _ end] => destruct (divide p q)
    end; reflexivity.
Qed.

Lemma step_integration (sin : Qc -> Qc) (self : Vehicle)
    (throttle alpha : Qc) :
  (fst (step sin self throttle alpha)).(x)
  = self.(x) + self.(v) * self.(sample_time) /\
  (fst (step sin self throttle alpha)).(v)
  = self.(v) + self.(a) * self.(sample_time) /\
  (fst (step sin self throttle alpha)).(w_e)
  = self.(w_e) + self.(w_e_dot) * self.(sample_time).
Proof.
  unfold step.
  repeat match goal with
    | |- context [match divide ?p ?q with _ => _ end] => destruct (divide p q)
    end; repeat split; reflexivity.
Qed.

(** ** The scripted throttle and the time axis *)

Lemma leb_le (p q : Qc) : leb p q = true -> p <= q.
Proof.
  unfold leb. destruct (Qclt_le_dec q p) as [H | H]; [discriminate |].
  intros _. exact H.
Qed.

Lemma nth_error_seq_0 (n i : nat) :
  (i < n)%nat -> nth_error (seq 0 n) i = Some i.
Proof.
  intros Hi.
  rewrite nth_error_nth' with (d := 0%nat) by (rewrite length_seq; exact Hi).
  rewrite seq_nth by exact Hi. reflexivity.
Qed.

(** X14.  Every entry of the scripted [throttle_data] can be read and lies
    between 0.2 and 0.5, so every throttle the ramp loop passes to [step] is
    a valid throttle percentage. *)
Theorem throttle_data_in_range (i : nat) :
  (i < t_len)%nat ->
  exists throttle,
    load i throttle_data = Ok throttle /\
    float 0.2 <= throttle /\ throttle <= float 0.5.
Proof.
  intros Hi. exists (throttle_profile i).
  assert (Hall : forallb (fun t => within (float 0.2) (float 0.5)
                                     (throttle_profile t))
                   (seq 0 t_len) = true) by (vm_compute; reflexivity).
  rewrite forallb_forall in Hall.
  assert (Hin : In i (seq 0 t_len)) by (apply in_seq; lia).
  apply Hall in Hin. unfold within in Hin. apply andb_true_iff in Hin.
  destruct Hin as [Hlo Hhi]. split.
  - unfold load, throttle_data.
    rewrite (map_nth_error throttle_profile i (seq 0 t_len)
               (nth_error_seq_0 t_len i Hi)).
    reflexivity.
  - split; apply leb_le; assumption.
Qed.

Lemma throttle_data_in_range_witness :
  exists throttle,
    load 1999 throttle_data = Ok throttle /\
    float 0.2 <= throttle /\ throttle <= float 0.5.
Proof.
  apply throttle_data_in_range. rewrite t_len_value. lia.
Defined.

(** ** The recordings of the ramp loop *)

Section RampRecordings.

Variables (sin : Qc -> Qc) (atan2 : Qc -> Qc -> Qc).

Lemma ramp_iteration_records_velocity (i : nat) (model model' : Vehicle)
    (rec rec' : recording) :
  ramp_iteration sin atan2 i (model, rec) = Ok (model', rec') ->
  (i < length rec.(v_data))%nat /\
  rec'.(v_data) = replace_nth i model.(v) rec.(v_data).
Proof.
  unfold ramp_iteration.
  destruct (store i (x model) (x_data rec)) as [xs | e]; [| discriminate].
  cbn [bind]. unfold store at 1.
  destruct (i <? length (v_data rec))%nat eqn:Hi; [| discriminate].
  apply Nat.ltb_lt in Hi. cbn [bind].
  match goal with
  | |- context [bind ?c _] => destruct c as [alphas | e]; [| discriminate]
  end.
  cbn [bind].
  destruct (load i (throttle_data)) as [throttle | e]; [| discriminate].
  cbn [bind].
  destruct (load i alphas) as [alpha | e]; [| discriminate]. cbn [bind].
  destruct (step sin model throttle alpha) as [next [[] | e]];
    [| discriminate].
  intros E. injection E as <- <-. cbn [v_data].
  split; [exact Hi | reflexivity].
Qed.

Lemma steps_from_head (first last : Vehicle) (models : list Vehicle) :
  steps_from sin first models last -> hd last models = first.
Proof. intros H. destruct H; reflexivity. Qed.

(** X15.  A returning run of the ramp loop over the indices
    [k, ..., k + j - 1] is a chain of [j] returning steps.  It writes into
    [x_data] and [v_data], at these indices and nowhere else, the position
    and the velocity the model had before each step, and the recorded
    trajectory is explicit Euler: each position is the previous position
    plus the previous velocity times the sample time. *)
Theorem ramp_loop_records_trajectory (j k : nat) (model last : Vehicle)
    (rec rec' : recording) :
  ramp_loop sin atan2 (seq k j) (model, rec) = Ok (last, rec') ->
  exists models,
    length models = j /\
    steps_from sin model models last /\
    rec'.(x_data)
    = firstn k rec.(x_data) ++ map x models ++ skipn (k + j) rec.(x_data) /\
    rec'.(v_data)
    = firstn k rec.(v_data) ++ map v models ++ skipn (k + j) rec.(v_data) /\
    euler_chain models last.
Proof.
  revert k model rec.
  induction j as [| j IH]; intros k model rec; cbn [seq ramp_loop].
  - intros E. injection E as <- <-. exists []. split; [reflexivity |].
    split; [constructor |]. cbn [map app euler_chain]. rewrite Nat.add_0_r.
    repeat split; symmetry; apply firstn_skipn.
  - destruct (ramp_iteration sin atan2 k (model, rec)) as [[next rec1] | e]
      eqn:Hit; [| discriminate]. cbn [bind]. intros Hloop.
    destruct (ramp_iteration_records sin atan2 _ _ _ _ _ Hit)
      as (Hk & Hx & throttle & alpha & Hstep).
    destruct (ramp_iteration_records_velocity _ _ _ _ _ Hit) as (Hkv & Hv).
    destruct (IH _ _ _ Hloop)
      as (models & Hlen & Hsteps & Hxs & Hvs & Heuler).
    exists (model :: models). split; [cbn; lia |].
    split; [econstructor; eassumption |].
    split; [| split].
    + rewrite Hxs, Hx, firstn_replace_nth by exact Hk.
      rewrite skipn_replace_nth by lia.
      rewrite <- app_assoc, Nat.add_succ_r. reflexivity.
    + rewrite Hvs, Hv, firstn_replace_nth by exact Hkv.
      rewrite skipn_replace_nth by lia.
      rewrite <- app_assoc, Nat.add_succ_r. reflexivity.
    + cbn [euler_chain]. split; [| exact Heuler].
      rewrite (steps_from_head _ _ _ Hsteps).
      pose proof (step_integration sin model throttle alpha) as (Hpos & _).
      rewrite Hstep in Hpos. exact Hpos.
Qed.

End RampRecordings.

Lemma ramp_loop_records_trajectory_witness :
  let start :=
    (reset init,
     {| x_data := repeat (float 0) 4; v_data := repeat (float 0) 4;
        alpha_data := repeat (float 0) 4 |}) in
  exists last rec' models,
    ramp_loop level_sin no_ramp (seq 0 2) start = Ok (last, rec') /\
    length models = 2%nat /\
    steps_from level_sin (reset init) models last /\
    rec'.(x_data)
    = firstn 0 (repeat (float 0) 4) ++ map x models
      ++ skipn (0 + 2) (repeat (float 0) 4) /\
    rec'.(v_data)
    = firstn 0 (repeat (float 0) 4) ++ map v models
      ++ skipn (0 + 2) (repeat (float 0) 4) /\
    euler_chain models last.
Proof.
  intros start.
  destruct (ramp_loop level_sin no_ramp (seq 0 2) start)
    as [[last rec'] | e] eqn:Hloop;
    [| vm_compute in Hloop; discriminate Hloop].
  exists last, rec'.
  destruct (ramp_loop_records_trajectory level_sin no_ramp 2 0 (reset init)
              last _ rec' Hloop) as (models & H).
  exists models. split; [reflexivity | exact H].
Defined.
